(** * Lip Decoder: a shallow embedding of [app.py]

    The Streamlit script is modelled as computations in a small monad that
    threads [st.session_state], logs every externally visible call as an
    event, and propagates Python exceptions.  Everything the script cannot
    decide by itself (the wall clock, the camera, the MoviePy calls, the
    three functions imported from [utils]) is an explicit oracle. *)

From Stdlib Require Import ZArith QArith Qround List String Ascii Bool Lia Lqa.
Import ListNotations.
Open Scope string_scope.
Open Scope list_scope.
Open Scope Z_scope.

(** ** Python values used by the script *)

(** Python separates exceptions deriving from [Exception] from those that
    only derive from [BaseException] ([KeyboardInterrupt], [SystemExit]);
    [except Exception] catches the former only, a bare [except:] both. *)
Inductive exn : Type :=
| PyException (msg : string)
| PyBaseException (msg : string).

Definition exn_str (e : exn) : string :=
  match e with PyException m => m | PyBaseException m => m end.

Definition is_Exception (e : exn) : bool :=
  match e with PyException _ => true | PyBaseException _ => false end.

(** [int(x)] on a number: truncation towards zero. *)
Definition py_int (x : Q) : Z := Z.quot (Qnum x) (Zpos (Qden x)).

(** *** Python floats

    A float is an IEEE 754 binary64 number, given here by its value.
    [py_float x] is the float nearest to the rational [x], ties to even:
    53 significant bits, subnormals below [2 ^ -1022].  The exponent is not
    bounded above, so there is no infinity. *)

(** The fraction [a / b] divided by [2 ^ e]. *)
Definition scaled (a b e : Z) : Z * Z :=
  if 0 <=? e then (a, b * 2 ^ e) else (a * 2 ^ (- e), b).

(** [n / d] rounded to the nearest integer, ties to even. *)
Definition round_half_even (n d : Z) : Z :=
  let m := n / d in
  let r := n mod d in
  match 2 * r ?= d with
  | Lt => m
  | Gt => m + 1
  | Eq => if Z.even m then m else m + 1
  end.

(** The integer part of the binary logarithm of [a / b], for positive [a]
    and [b]. *)
Definition floor_log2 (a b : Z) : Z :=
  let k := Z.log2 a - Z.log2 b in
  let '(n, d) := scaled a b k in
  if d <=? n then k else k - 1.

Definition round_pos (a b : Z) : Q :=
  let e := Z.max (floor_log2 a b - 52) (-1074) in
  let '(n, d) := scaled a b e in
  let m := round_half_even n d in
  if 0 <=? e then inject_Z (m * 2 ^ e) else (m # Z.to_pos (2 ^ (- e))).

Definition py_float (x : Q) : Q :=
  match Qnum x with
  | Z0 => 0%Q
  | Zpos _ => round_pos (Qnum x) (Zpos (Qden x))
  | Zneg _ => (- round_pos (- Qnum x) (Zpos (Qden x)))%Q
  end.

(** The product of two floats, or of a float and an int converted to one. *)
Definition py_float_mul (x y : Q) : Q := py_float (x * y).

Definition is_whole (x : Q) : bool := Qnum x mod Zpos (Qden x) =? 0.

(** Truth value of [st.session_state.video_path]: [None] and the empty
    string are false. *)
Definition truthy (p : option string) : bool :=
  match p with
  | None => false
  | Some EmptyString => false
  | Some (String _ _) => true
  end.

(** A BGR frame as delivered by [cap.read()]. *)
Definition pixel : Type := (N * N * N)%type.
Definition frame : Type := list pixel.

Definition cvtColor_BGR2RGB (f : frame) : frame :=
  map (fun p : pixel => let '(b, g, r) := p in (r, g, b)) f.

(** The array returned by [sd.rec]: only its shape matters here. *)
Record recording : Type := mkRecording {
  rec_frames : Z;
  rec_samplerate : Z;
  rec_channels : Z
}.

(** ** Session state (section 2 of the script) *)

Record session_state : Type := mkSession {
  page : Z;
  input_method : option string;
  target_lang : string;
  target_lang_code : string;
  video_path : option string
}.

Definition initial_session : session_state :=
  {| page := 1; input_method := None; target_lang := "English";
     target_lang_code := "en"; video_path := None |}.

(** ** Observable events *)

Inductive event : Type :=
(* sounddevice / scipy *)
| SdRec (r : recording)
| SdWait
| WavWrite (path : string) (rate : Z) (data : recording)
(* OpenCV *)
| CapOpen (device : Z)
| CapRelease
| WriterOpen (path : string) (fps : Q) (width height : Z)
| WriterWrite (f : frame)
| WriterRelease
(* MoviePy and os *)
| VideoFileClipOpen (path : string)
| AudioFileClipOpen (path : string)
| ClipSetAudio
| ClipWriteVideofile (path : string)
| VideoClipClose
| AudioClipClose
| OsRemove (path : string)
(* Streamlit *)
| StImage (f : frame) (caption : string)
| StPlaceholderEmpty
| StInfo (text : string)
| StSuccess (text : string)
| StWarning (text : string)
| StError (text : string)
| StVideo (path : string)
| Progress (percent : Z) (text : string)
| BarEmpty
| ResultBox (lang translated raw_text : string)
| Sleep (seconds : Q)
(* utils *)
| CallVisual (path : string)
| CallDecode (path : string)
| CallTranslate (text code : string).

(** ** The monad: session state, event log, exceptions and fuel *)

Inductive outcome (A : Type) : Type :=
| Returned (a : A)
| Raised (e : exn)
| OutOfFuel.
Arguments Returned {A} a.
Arguments Raised {A} e.
Arguments OutOfFuel {A}.

Definition M (A : Type) : Type :=
  session_state -> outcome A * session_state * list event.

Definition ret {A} (a : A) : M A := fun s => (Returned a, s, []).

Definition bind {A B} (m : M A) (k : A -> M B) : M B :=
  fun s =>
    match m s with
    | (Returned a, s1, t1) =>
        let '(o, s2, t2) := k a s1 in (o, s2, t1 ++ t2)
    | (Raised e, s1, t1) => (Raised e, s1, t1)
    | (OutOfFuel, s1, t1) => (OutOfFuel, s1, t1)
    end.

Notation "x <- m ;; k" := (bind m (fun x => k))
  (at level 61, m at next level, right associativity).
Notation "m ;; k" := (bind m (fun _ => k))
  (at level 61, right associativity).

Definition get : M session_state := fun s => (Returned s, s, []).
Definition modify (f : session_state -> session_state) : M unit :=
  fun s => (Returned tt, f s, []).
Definition tell (e : event) : M unit := fun s => (Returned tt, s, [e]).
Definition raise {A} (e : exn) : M A := fun s => (Raised e, s, []).
Definition out_of_fuel {A} : M A := fun s => (OutOfFuel, s, []).

(** A call into a library that either succeeds, which is logged, or raises. *)
Definition perform (ev : event) (fault : option exn) : M unit :=
  match fault with
  | None => tell ev
  | Some e => raise e
  end.

(** [try: body / except Exception as e: handler e]. *)
Definition try_except_Exception {A} (body : M A) (handler : exn -> M A) : M A :=
  fun s =>
    match body s with
    | (Raised (PyException m), s1, t1) =>
        let '(o, s2, t2) := handler (PyException m) s1 in (o, s2, t1 ++ t2)
    | r => r
    end.

(** [try: body / except: pass]. *)
Definition try_except_pass (body : M unit) : M unit :=
  fun s =>
    match body s with
    | (Raised _, s1, t1) => (Returned tt, s1, t1)
    | r => r
    end.

Definition result_of {A} (r : outcome A * session_state * list event) : outcome A :=
  fst (fst r).
Definition state_of {A} (r : outcome A * session_state * list event) : session_state :=
  snd (fst r).
Definition trace_of {A} (r : outcome A * session_state * list event) : list event :=
  snd r.

(** ** Navigation functions *)

Definition next_page : M unit :=
  modify (fun s => {| page := page s + 1; input_method := input_method s;
                      target_lang := target_lang s;
                      target_lang_code := target_lang_code s;
                      video_path := video_path s |}).

Definition prev_page : M unit :=
  modify (fun s => {| page := page s - 1; input_method := input_method s;
                      target_lang := target_lang s;
                      target_lang_code := target_lang_code s;
                      video_path := video_path s |}).

Definition set_page (n : Z) : M unit :=
  modify (fun s => {| page := n; input_method := input_method s;
                      target_lang := target_lang s;
                      target_lang_code := target_lang_code s;
                      video_path := video_path s |}).

Definition set_video_path (p : option string) : M unit :=
  modify (fun s => {| page := page s; input_method := input_method s;
                      target_lang := target_lang s;
                      target_lang_code := target_lang_code s;
                      video_path := p |}).

Definition set_input_method (m : option string) : M unit :=
  modify (fun s => {| page := page s; input_method := m;
                      target_lang := target_lang s;
                      target_lang_code := target_lang_code s;
                      video_path := video_path s |}).

Definition set_target_lang (name : string) : M unit :=
  modify (fun s => {| page := page s; input_method := input_method s;
                      target_lang := name;
                      target_lang_code := target_lang_code s;
                      video_path := video_path s |}).

Definition set_target_lang_code (code : string) : M unit :=
  modify (fun s => {| page := page s; input_method := input_method s;
                      target_lang := target_lang s;
                      target_lang_code := code;
                      video_path := video_path s |}).

Definition reset_app : M unit :=
  set_page 1 ;;
  set_video_path None ;;
  set_input_method None.

Definition set_input (method : string) : M unit :=
  set_input_method (Some method) ;;
  next_page.

Definition set_language (name code : string) : M unit :=
  set_target_lang name ;;
  set_target_lang_code code ;;
  next_page.

(** ** The environment of [record_av_segment]

    One record holds what the devices and libraries answer during one call:
    the successive readings of [time.time()], the camera, and the faults
    ([None] is success) of the calls that may raise.  The remaining calls
    ([sd.rec], [sd.wait], the tempfile constructors, [st.info], [st.error])
    are taken to succeed.  [temp_vid], [temp_audio] and [final_output] are
    the names of the three [NamedTemporaryFile]s. *)
Record world : Type := mkWorld {
  clock : nat -> Q;
  frame_width : Q;
  frame_height : Q;
  cap_read : nat -> option frame;
  out_write : nat -> option exn;
  preview : nat -> option exn;
  temp_vid : string;
  temp_audio : string;
  final_output : string;
  video_clip_open : option exn;
  audio_clip_open : option exn;
  set_audio : option exn;
  write_videofile : option exn;
  video_clip_close : option exn;
  audio_clip_close : option exn;
  remove_vid : option exn;
  remove_audio : option exn
}.

Definition fs : Z := 44100.
Definition fps : Q := 20 # 1.

(** [int(duration * fs)], the number of frames asked of [sd.rec].  The
    duration is given by its value.  A whole number stands for a Python
    [int], as the default and the only call of the script pass: the product
    is exact.  A number with a fractional part stands for the float nearest
    to it: the product is a float product, rounded, and [int] truncates it.
    (A float with a whole value gives the same count as the int as long as
    the product is below [2 ^ 53], which [whole_float_counts_as_int] proves;
    float durations beyond that, some 6000 years, whose product is rounded
    or overflows, are outside this model.) *)
Definition sd_rec_frames (duration : Q) : Z :=
  if is_whole duration then py_int (duration * inject_Z fs)
  else py_int (py_float_mul (py_float duration) (inject_Z fs)).

Definition Qltb (x y : Q) : bool := negb (Qle_bool y x).

(** Seconds elapsed at the loop test that precedes the [i]-th frame read:
    reading [0] of the clock is [start_time], reading [S i] is the test. *)
Definition elapsed (w : world) (i : nat) : Q := clock w (S i) - clock w 0%nat.

(** Step 3, the recording loop.  [i] counts the iterations done so far. *)
Fixpoint recording_loop (w : world) (duration start_time : Q)
                        (fuel i : nat) : M unit :=
  match fuel with
  | O => out_of_fuel
  | S fuel' =>
      if Qltb (clock w (S i) - start_time) duration then
        match cap_read w i with
        | None => ret tt
        | Some frame =>
            perform (WriterWrite frame) (out_write w i) ;;
            perform (StImage (cvtColor_BGR2RGB frame) "Recording...")
                    (preview w i) ;;
            recording_loop w duration start_time fuel' (S i)
        end
      else ret tt
  end.

(** Steps 1 to 4, up to the "Processing Media..." message. *)
Definition capture_phase (w : world) (fuel : nat) (duration : Q) : M unit :=
  let myrecording := mkRecording (sd_rec_frames duration) fs 1 in
  tell (SdRec myrecording) ;;
  tell (CapOpen 0) ;;
  let width := py_int (frame_width w) in
  let height := py_int (frame_height w) in
  tell (WriterOpen (temp_vid w) fps width height) ;;
  let start_time := clock w 0%nat in
  recording_loop w duration start_time fuel 0 ;;
  tell CapRelease ;;
  tell WriterRelease ;;
  tell SdWait ;;
  tell (WavWrite (temp_audio w) fs myrecording) ;;
  tell StPlaceholderEmpty ;;
  tell (StInfo "Processing Media...").

(** Step 5, the merge with its fallback. *)
Definition merge_step (w : world) : M string :=
  try_except_Exception
    (perform (VideoFileClipOpen (temp_vid w)) (video_clip_open w) ;;
     perform (AudioFileClipOpen (temp_audio w)) (audio_clip_open w) ;;
     perform ClipSetAudio (set_audio w) ;;
     perform (ClipWriteVideofile (final_output w)) (write_videofile w) ;;
     perform VideoClipClose (video_clip_close w) ;;
     perform AudioClipClose (audio_clip_close w) ;;
     try_except_pass
       (perform (OsRemove (temp_vid w)) (remove_vid w) ;;
        perform (OsRemove (temp_audio w)) (remove_audio w)) ;;
     ret (final_output w))
    (fun e =>
       tell (StError (append "Merge Error: " (exn_str e))) ;;
       ret (temp_vid w)).

Definition record_av_segment (w : world) (fuel : nat) (duration : Q) : M string :=
  capture_phase w fuel duration ;;
  merge_step w.

(** ** The functions imported from [utils] *)

Inductive result (A : Type) : Type :=
| Ok (a : A)
| Err (e : exn).
Arguments Ok {A} a.
Arguments Err {A} e.

Record utils : Type := mkUtils {
  features : Type;
  visual_feature_extraction : string -> result features;
  deep_lip_decode : string -> result string;
  translate_content : string -> string -> result string
}.

(** A call into [utils]: the invocation is logged, then it answers. *)
Definition call {A} (ev : event) (r : result A) : M A :=
  tell ev ;;
  match r with
  | Ok a => ret a
  | Err e => raise e
  end.

Definition path_of (p : option string) : string :=
  match p with Some x => x | None => EmptyString end.

(** ** Page 4 *)

(** The live-input branch; [start_recording] is the value of the
    "Start Recording" button in this run of the script.  The spinner around
    the call only decorates the page and is left out. *)
Definition page4_live (w : world) (fuel : nat) (start_recording : bool) : M unit :=
  tell (StInfo "Records for 2 MINUTES.") ;;
  (if start_recording then
     file_path <- record_av_segment w fuel (60 # 1) ;;
     set_video_path (Some file_path) ;;
     tell (StSuccess "Recording Saved!")
   else ret tt) ;;
  s <- get ;;
  if truthy (video_path s) then tell (StVideo (path_of (video_path s)))
  else ret tt.

(** The body of [if st.button("ANALYZE LIP MOVEMENTS"):].  The session is
    read once: nothing in the handler writes to it. *)
Definition analyze (u : utils) : M unit :=
  s <- get ;;
  if negb (truthy (video_path s)) then
    tell (StWarning "Please provide a video first.")
  else
    tell (Progress 0 "Initializing 3D-CNN Pipeline...") ;;
    tell (Sleep (3 # 10)) ;;
    _ <- call (CallVisual (path_of (video_path s)))
              (visual_feature_extraction u (path_of (video_path s))) ;;
    tell (Progress 40 "Extracting Lip Landmarks & Geometry...") ;;
    tell (Sleep (3 # 10)) ;;
    tell (Progress 70 "Mapping Spatiotemporal Features...") ;;
    raw_text <- call (CallDecode (path_of (video_path s)))
                     (deep_lip_decode u (path_of (video_path s))) ;;
    tell (Progress 90 (append "Translating to " (append (target_lang s) "..."))) ;;
    translated <- call (CallTranslate raw_text (target_lang_code s))
                       (translate_content u raw_text (target_lang_code s)) ;;
    tell (Progress 100 "Complete!") ;;
    tell (Sleep (2 # 10)) ;;
    tell BarEmpty ;;
    tell (ResultBox (target_lang s) translated raw_text).

(** ** Reading a trace *)

Definition written_frames (tr : list event) : list frame :=
  flat_map (fun e => match e with WriterWrite f => [f] | _ => [] end) tr.

Definition audio_sample_counts (tr : list event) : list Z :=
  flat_map (fun e => match e with
                     | WavWrite _ _ data => [rec_frames data]
                     | _ => []
                     end) tr.

Definition progress_values (tr : list event) : list Z :=
  flat_map (fun e => match e with Progress p _ => [p] | _ => [] end) tr.

Definition is_collaborator_call (e : event) : bool :=
  match e with
  | CallVisual _ | CallDecode _ | CallTranslate _ _ => true
  | _ => false
  end.

Definition collaborator_calls (tr : list event) : list event :=
  filter is_collaborator_call tr.

(** The two texts put on screen by the result box: (translated, original). *)
Definition displayed_result (tr : list event) : list (string * string) :=
  flat_map (fun e => match e with
                     | ResultBox _ translated raw => [(translated, raw)]
                     | _ => []
                     end) tr.

Definition is_error_report (e : event) : bool :=
  match e with StError _ | StWarning _ => true | _ => false end.

(** An error condition reaches the caller: an exception, or a report on the
    page. *)
Definition error_signalled {A} (r : outcome A * session_state * list event) : bool :=
  match result_of r with
  | Raised _ => true
  | _ => existsb is_error_report (trace_of r)
  end.

(** Length in seconds of the video file when played: the writer stamps the
    frames at [fps] whatever the rate at which they arrived. *)
Definition playback_length (tr : list event) : Q :=
  inject_Z (Z.of_nat (List.length (written_frames tr))) / fps.

(** The frames the camera delivers in iterations [i], ..., [i + k - 1], and
    what a fault-free loop logs for them. *)
Definition iter_events (w : world) (i : nat) : list event :=
  match cap_read w i with
  | Some f => [WriterWrite f; StImage (cvtColor_BGR2RGB f) "Recording..."]
  | None => []
  end.

Definition loop_events (w : world) (i k : nat) : list event :=
  flat_map (iter_events w) (seq i k).

Definition frames_read (w : world) (k : nat) : list frame :=
  flat_map (fun i => match cap_read w i with Some f => [f] | None => [] end)
           (seq 0 k).

(** The loop leaves at test [j]: time is up, or the read fails. *)
Definition stops_at (w : world) (duration : Q) (j : nat) : bool :=
  negb (Qltb (elapsed w j) duration)
  || match cap_read w j with None => true | Some _ => false end.

(** The faults of the merge, in program order, and the first that occurs. *)
Definition merge_faults (w : world) : list (option exn) :=
  [video_clip_open w; audio_clip_open w; set_audio w; write_videofile w;
   video_clip_close w; audio_clip_close w].

Fixpoint first_fault (l : list (option exn)) : option exn :=
  match l with
  | [] => None
  | Some e :: _ => Some e
  | None :: l' => first_fault l'
  end.

(** *** Stages

    The script has no type of stages: it emits percentages and calls the
    collaborators.  The enumeration below names, for each percentage the
    handler emits, the stage of the specification's data model, and for each
    stage the call that is its work. *)
Inductive stage : Type :=
| Initializing
| ExtractingVisualFeatures
| DecodingSpeech
| Translating
| Complete.

Definition stage_percent (st : stage) : Z :=
  match st with
  | Initializing => 0
  | ExtractingVisualFeatures => 40
  | DecodingSpeech => 70
  | Translating => 90
  | Complete => 100
  end.

Definition stage_of_percent (p : Z) : option stage :=
  if p =? 0 then Some Initializing
  else if p =? 40 then Some ExtractingVisualFeatures
  else if p =? 70 then Some DecodingSpeech
  else if p =? 90 then Some Translating
  else if p =? 100 then Some Complete
  else None.

Definition stages_entered (tr : list event) : list (option stage) :=
  map stage_of_percent (progress_values tr).

Definition is_stage_label (st : stage) (e : event) : bool :=
  match e with
  | Progress p _ => p =? stage_percent st
  | _ => false
  end.

Definition is_stage_work (st : stage) (e : event) : bool :=
  match st, e with
  | ExtractingVisualFeatures, CallVisual _ => true
  | DecodingSpeech, CallDecode _ => true
  | Translating, CallTranslate _ _ => true
  | Complete, ResultBox _ _ _ => true
  | _, _ => false
  end.

Fixpoint index_of (p : event -> bool) (tr : list event) : option nat :=
  match tr with
  | [] => None
  | e :: tr' => if p e then Some O else option_map S (index_of p tr')
  end.

(** The stage's label is on the progress bar before its work starts (a stage
    without work in the trace has nothing to precede). *)
Definition label_precedes_work (tr : list event) (st : stage) : bool :=
  match index_of (is_stage_work st) tr with
  | None => true
  | Some j =>
      match index_of (is_stage_label st) tr with
      | None => false
      | Some i => (i <? j)%nat
      end
  end.

Definition count_labels (tr : list event) (st : stage) : nat :=
  List.length (filter (is_stage_label st) tr).

(** What [capture_phase] logs before and after the loop. *)
Definition requested_recording (duration : Q) : recording :=
  mkRecording (sd_rec_frames duration) fs 1.

Definition capture_prologue (w : world) (duration : Q) : list event :=
  [SdRec (requested_recording duration);
   CapOpen 0;
   WriterOpen (temp_vid w) fps (py_int (frame_width w)) (py_int (frame_height w))].

Definition capture_epilogue (w : world) (duration : Q) : list event :=
  [CapRelease; WriterRelease; SdWait;
   WavWrite (temp_audio w) fs (requested_recording duration);
   StPlaceholderEmpty;
   StInfo "Processing Media..."].

Definition camera_released (tr : list event) : bool :=
  existsb (fun e => match e with CapRelease => true | _ => false end) tr.

Definition writer_released (tr : list event) : bool :=
  existsb (fun e => match e with WriterRelease => true | _ => false end) tr.

(** [sd.wait()] has returned: the input stream has finished and is closed. *)
Definition audio_finished (tr : list event) : bool :=
  existsb (fun e => match e with SdWait => true | _ => false end) tr.

(** ** Concrete environments used in the examples below *)

Definition demo_frame (i : nat) : frame := [(N.of_nat i, 0%N, 255%N)].

(** A clock that advances [tick] seconds per reading, a camera that
    delivers [good_reads] frames and then fails, and chosen faults for the
    preview and for opening the audio clip. *)
Definition demo_world (tick : Q) (good_reads : nat)
                      (preview_fault : nat -> option exn)
                      (audio_fault : option exn) : world :=
  {| clock := fun n => (inject_Z (Z.of_nat n) * tick)%Q;
     frame_width := 640 # 1;
     frame_height := 480 # 1;
     cap_read := fun i => if (i <? good_reads)%nat then Some (demo_frame i) else None;
     out_write := fun _ => None;
     preview := preview_fault;
     temp_vid := "/tmp/raw.mp4";
     temp_audio := "/tmp/raw.wav";
     final_output := "/tmp/final.mp4";
     video_clip_open := None;
     audio_clip_open := audio_fault;
     set_audio := None;
     write_videofile := None;
     video_clip_close := None;
     audio_clip_close := None;
     remove_vid := None;
     remove_audio := None |}.

Definition steady_world : world := demo_world 1 100 (fun _ => None) None.

(** A camera that answers a hundred times per second. *)
Definition fast_camera_world : world :=
  demo_world (1 # 100) 1000 (fun _ => None) None.

Definition failing_camera_world : world := demo_world 1 1 (fun _ => None) None.

Definition failing_preview_world : world :=
  demo_world 1 100
    (fun i => if (i =? 1)%nat then Some (PyException "preview failed") else None)
    None.

Definition corrupt_audio_world : world :=
  demo_world 1 100 (fun _ => None) (Some (PyException "corrupt audio file")).

Definition interrupted_merge_world : world :=
  demo_world 1 100 (fun _ => None) (Some (PyBaseException "KeyboardInterrupt")).

Definition demo_utils (visual_answer : nat) : utils :=
  {| features := nat;
     visual_feature_extraction := fun _ => Ok visual_answer;
     deep_lip_decode := fun p => Ok (append "heard in " p);
     translate_content := fun text code => Ok (append code (append ": " text)) |}.

Definition demo_session : session_state :=
  {| page := 4; input_method := Some "upload"; target_lang := "Hindi";
     target_lang_code := "hi"; video_path := Some "clip.mp4" |}.

Definition empty_path_session : session_state :=
  {| page := 4; input_method := Some "upload"; target_lang := "Hindi";
     target_lang_code := "hi"; video_path := Some EmptyString |}.

(** ** The script, run by run

    Streamlit runs the script from the top after each interaction.  In the
    run that a click starts, [st.button] is true for the clicked button and
    false for every other one; a button's [on_click] callback runs before
    the script.  Calls that only draw (markdown, columns, the logo, the
    preview of the uploaded file) are not logged. *)

Inductive button : Type :=
| BtnExploreNow
| BtnBack
| BtnUploadVideo
| BtnLiveVideo
| BtnEnglish
| BtnTamil
| BtnHindi
| BtnKannada
| BtnTelugu
| BtnStartOver
| BtnStartRecording
| BtnAnalyze.

Definition button_eq_dec (a b : button) : {a = b} + {a <> b}.
Proof. decide equality. Defined.

(** What one run receives: the click that started it, if any; the name of
    the temporary file made for the file sitting in the uploader, if any;
    and what the devices answer if the recorder runs. *)
Record rerun_input : Type := mkInput {
  in_clicked : option button;
  in_uploaded : option string;
  in_devices : world;
  in_fuel : nat
}.

Definition pressed (click : option button) (b : button) : bool :=
  match click with
  | Some c => if button_eq_dec c b then true else false
  | None => false
  end.

Definition when (b : bool) (m : M unit) : M unit :=
  if b then m else ret tt.

Definition is_method (m : option string) (name : string) : bool :=
  match m with
  | Some x => String.eqb x name
  | None => false
  end.

Definition page1 (click : option button) : M unit :=
  when (pressed click BtnExploreNow) next_page.

Definition page2 (click : option button) : M unit :=
  when (pressed click BtnBack) prev_page ;;
  when (pressed click BtnUploadVideo) (set_input "upload") ;;
  when (pressed click BtnLiveVideo) (set_input "live").

Definition page3 (click : option button) : M unit :=
  when (pressed click BtnBack) prev_page ;;
  when (pressed click BtnEnglish) (set_language "English" "en") ;;
  when (pressed click BtnTamil) (set_language "Tamil" "ta") ;;
  when (pressed click BtnHindi) (set_language "Hindi" "hi") ;;
  when (pressed click BtnKannada) (set_language "Kannada" "kn") ;;
  when (pressed click BtnTelugu) (set_language "Telugu" "te").

(** The upload branch: a file in the uploader is copied to a new temporary
    file, whose name becomes the video path. *)
Definition page4_upload (uploaded : option string) : M unit :=
  match uploaded with
  | Some tfile_name => set_video_path (Some tfile_name)
  | None => ret tt
  end.

Definition page4 (u : utils) (inp : rerun_input) : M unit :=
  s <- get ;;
  (if is_method (input_method s) "upload" then page4_upload (in_uploaded inp)
   else if is_method (input_method s) "live" then
     page4_live (in_devices inp) (in_fuel inp)
                (pressed (in_clicked inp) BtnStartRecording)
   else ret tt) ;;
  when (pressed (in_clicked inp) BtnAnalyze) (analyze u).

Definition script (u : utils) (inp : rerun_input) : M unit :=
  s <- get ;;
  if page s =? 1 then page1 (in_clicked inp)
  else if page s =? 2 then page2 (in_clicked inp)
  else if page s =? 3 then page3 (in_clicked inp)
  else if page s =? 4 then page4 u inp
  else ret tt.

(** One run: the callback of "Start Over" when that was the click, then the
    script. *)
Definition rerun (u : utils) (inp : rerun_input) : M unit :=
  when (pressed (in_clicked inp) BtnStartOver) reset_app ;;
  script u inp.

(** The session after a series of runs; it survives a run that raises. *)
Fixpoint reruns (u : utils) (inps : list rerun_input) (s : session_state)
  : session_state :=
  match inps with
  | [] => s
  | inp :: rest => reruns u rest (state_of (rerun u inp s))
  end.

(** The five name and code pairs of the language buttons. *)
Definition languages : list (string * string) :=
  [("English", "en"); ("Tamil", "ta"); ("Hindi", "hi"); ("Kannada", "kn");
   ("Telugu", "te")].

Definition language_of_button (b : button) : option (string * string) :=
  match b with
  | BtnEnglish => Some ("English", "en")
  | BtnTamil => Some ("Tamil", "ta")
  | BtnHindi => Some ("Hindi", "hi")
  | BtnKannada => Some ("Kannada", "kn")
  | BtnTelugu => Some ("Telugu", "te")
  | _ => None
  end.

(** What holds of every session the script can be in. *)
Definition session_ok (s : session_state) : Prop :=
  1 <= page s <= 4 /\
  In (target_lang s, target_lang_code s) languages /\
  (3 <= page s ->
   input_method s = Some "upload" \/ input_method s = Some "live") /\
  (page s <> 4 -> video_path s = None).

Definition with_video_path (s : session_state) (p : option string)
  : session_state :=
  {| page := page s; input_method := input_method s;
     target_lang := target_lang s;
     target_lang_code := target_lang_code s;
     video_path := p |}.

(** Two sessions that differ at most in the video path. *)
Definition same_but_video (s s' : session_state) : Prop :=
  page s' = page s /\
  input_method s' = input_method s /\
  target_lang s' = target_lang s /\
  target_lang_code s' = target_lang_code s.

(** *** More readings of a trace *)

Definition removed_files (tr : list event) : list string :=
  flat_map (fun e => match e with OsRemove p => [p] | _ => [] end) tr.

Definition bar_cleared (tr : list event) : bool :=
  existsb (fun e => match e with BarEmpty => true | _ => false end) tr.

Definition video_clip_opened (tr : list event) : bool :=
  existsb (fun e => match e with VideoFileClipOpen _ => true | _ => false end) tr.

Definition video_clip_closed (tr : list event) : bool :=
  existsb (fun e => match e with VideoClipClose => true | _ => false end) tr.

(** The events [record_av_segment] can log. *)
Definition recorder_event (e : event) : bool :=
  match e with
  | SdRec _ | SdWait | WavWrite _ _ _
  | CapOpen _ | CapRelease | WriterOpen _ _ _ _ | WriterWrite _ | WriterRelease
  | VideoFileClipOpen _ | AudioFileClipOpen _ | ClipSetAudio
  | ClipWriteVideofile _ | VideoClipClose | AudioClipClose | OsRemove _
  | StImage _ _ | StPlaceholderEmpty | StInfo _ | StError _ => true
  | _ => false
  end.

(** [utils] whose call number [failing] (0 visual, 1 decoder, 2 translation)
    raises. *)
Definition failing_utils (failing : nat) : utils :=
  {| features := nat;
     visual_feature_extraction := fun _ =>
       if (failing =? 0)%nat then Err (PyException "no face found") else Ok 0%nat;
     deep_lip_decode := fun p =>
       if (failing =? 1)%nat then Err (PyException "no audio track")
       else Ok (append "heard in " p);
     translate_content := fun text code =>
       if (failing =? 2)%nat then Err (PyException "translation service down")
       else Ok (append code (append ": " text)) |}.

Definition live_session : session_state :=
  {| page := 4; input_method := Some "live"; target_lang := "Tamil";
     target_lang_code := "ta"; video_path := None |}.

Definition language_page_session : session_state :=
  {| page := 3; input_method := Some "upload"; target_lang := "English";
     target_lang_code := "en"; video_path := None |}.

(** A world like [demo_world] whose deletion of the raw video fails. *)
Definition undeletable_world (fault : exn) : world :=
  {| clock := clock steady_world;
     frame_width := frame_width steady_world;
     frame_height := frame_height steady_world;
     cap_read := cap_read steady_world;
     out_write := out_write steady_world;
     preview := preview steady_world;
     temp_vid := temp_vid steady_world;
     temp_audio := temp_audio steady_world;
     final_output := final_output steady_world;
     video_clip_open := None;
     audio_clip_open := None;
     set_audio := None;
     write_videofile := None;
     video_clip_close := None;
     audio_clip_close := None;
     remove_vid := Some fault;
     remove_audio := None |}.

(** A camera that takes 50 ms per frame, as a 20 fps device does. *)
Definition paced_camera_world : world :=
  demo_world (1 # 20) 1000 (fun _ => None) None.

(** * Properties *)

(** ** Navigation *)

(** C10: Start Over ([reset_app]) puts the page back to 1 and clears the
    video path and the input method; the target language name and code are
    those of the state it started from.  Nothing is shown and nothing is
    raised. *)
Theorem reset_app_keeps_language (s : session_state) :
  reset_app s =
    (Returned tt,
     {| page := 1; input_method := None;
        target_lang := target_lang s;
        target_lang_code := target_lang_code s;
        video_path := None |},
     []).
Proof. destruct s; reflexivity. Qed.

(** ** The analysis pipeline *)

Lemma truthy_some (p : string) :
  p <> EmptyString -> truthy (Some p) = true.
Proof. destruct p; [congruence | reflexivity]. Qed.

Lemma truthy_false (p : option string) :
  truthy p = false <-> p = None \/ p = Some EmptyString.
Proof.
  destruct p as [[|c p]|]; simpl; split; intros H; auto; try discriminate.
  destruct H as [H|H]; discriminate.
Qed.

(** The whole run of the handler when the three collaborators answer. *)
Lemma analyze_run (u : utils) (s : session_state) (p : string)
      (f : features u) (raw translated : string) :
  video_path s = Some p ->
  p <> EmptyString ->
  visual_feature_extraction u p = Ok f ->
  deep_lip_decode u p = Ok raw ->
  translate_content u raw (target_lang_code s) = Ok translated ->
  analyze u s =
    (Returned tt, s,
     [ Progress 0 "Initializing 3D-CNN Pipeline...";
       Sleep (3 # 10);
       CallVisual p;
       Progress 40 "Extracting Lip Landmarks & Geometry...";
       Sleep (3 # 10);
       Progress 70 "Mapping Spatiotemporal Features...";
       CallDecode p;
       Progress 90 (append "Translating to " (append (target_lang s) "..."));
       CallTranslate raw (target_lang_code s);
       Progress 100 "Complete!";
       Sleep (2 # 10);
       BarEmpty;
       ResultBox (target_lang s) translated raw ]).
Proof.
  intros Hp Hne Hv Hd Ht.
  unfold analyze, bind, get, call, tell, ret; simpl.
  rewrite Hp, (truthy_some p Hne); simpl.
  rewrite Hv; simpl. rewrite Hd; simpl. rewrite Ht; simpl.
  reflexivity.
Qed.

(** C1: with a non-empty media path, and collaborators that answer, the
    analyze action goes through Initializing, ExtractingVisualFeatures,
    DecodingSpeech, Translating, Complete in that order, emits the
    percentages 0, 40, 70, 90, 100 once each in that order, calls the three
    collaborators once each in pipeline order, and shows as translated text
    what the translation collaborator answers for the decoder's output and
    the selected language code. *)
Theorem analyze_stages_in_order (u : utils) (s : session_state) (p : string)
        (f : features u) (raw translated : string) :
  video_path s = Some p ->
  p <> EmptyString ->
  visual_feature_extraction u p = Ok f ->
  deep_lip_decode u p = Ok raw ->
  translate_content u raw (target_lang_code s) = Ok translated ->
  result_of (analyze u s) = Returned tt /\
  stages_entered (trace_of (analyze u s)) =
    [Some Initializing; Some ExtractingVisualFeatures; Some DecodingSpeech;
     Some Translating; Some Complete] /\
  progress_values (trace_of (analyze u s)) = [0; 40; 70; 90; 100] /\
  collaborator_calls (trace_of (analyze u s)) =
    [CallVisual p; CallDecode p; CallTranslate raw (target_lang_code s)] /\
  displayed_result (trace_of (analyze u s)) = [(translated, raw)].
Proof.
  intros Hp Hne Hv Hd Ht.
  rewrite (analyze_run u s p f raw translated Hp Hne Hv Hd Ht).
  repeat split.
Qed.

Lemma analyze_stages_in_order_witness :
  result_of (analyze (demo_utils 0) demo_session) = Returned tt /\
  stages_entered (trace_of (analyze (demo_utils 0) demo_session)) =
    [Some Initializing; Some ExtractingVisualFeatures; Some DecodingSpeech;
     Some Translating; Some Complete] /\
  progress_values (trace_of (analyze (demo_utils 0) demo_session)) =
    [0; 40; 70; 90; 100] /\
  collaborator_calls (trace_of (analyze (demo_utils 0) demo_session)) =
    [CallVisual "clip.mp4"; CallDecode "clip.mp4";
     CallTranslate "heard in clip.mp4" "hi"] /\
  displayed_result (trace_of (analyze (demo_utils 0) demo_session)) =
    [("hi: heard in clip.mp4", "heard in clip.mp4")].
Proof.
  apply (analyze_stages_in_order (demo_utils 0) demo_session "clip.mp4"
           0%nat "heard in clip.mp4" "hi: heard in clip.mp4");
    [reflexivity | discriminate | reflexivity | reflexivity | reflexivity].
Defined.

(** C5: when the media path is absent or empty, the analyze action only
    shows the warning: it returns without raising, leaves the session as it
    was, and calls none of the three collaborators. *)
Theorem analyze_without_input (u : utils) (s : session_state) :
  truthy (video_path s) = false ->
  analyze u s = (Returned tt, s, [StWarning "Please provide a video first."]) /\
  collaborator_calls (trace_of (analyze u s)) = [] /\
  progress_values (trace_of (analyze u s)) = [].
Proof.
  intros H.
  assert (E : analyze u s =
              (Returned tt, s, [StWarning "Please provide a video first."])).
  { unfold analyze, bind, get, tell; simpl. rewrite H; reflexivity. }
  rewrite E. repeat split.
Qed.

Lemma analyze_without_input_witness :
  analyze (demo_utils 0) empty_path_session =
    (Returned tt, empty_path_session,
     [StWarning "Please provide a video first."]) /\
  collaborator_calls (trace_of (analyze (demo_utils 0) empty_path_session)) = [] /\
  progress_values (trace_of (analyze (demo_utils 0) empty_path_session)) = [].
Proof.
  apply (analyze_without_input (demo_utils 0) empty_path_session).
  reflexivity.
Defined.

(** C6: two runs on the same session whose [utils] differ only in what the
    visual collaborator returns are indistinguishable: same outcome, same
    session, same trace, hence the same (translated, original) pair on
    screen. *)
Theorem visual_answer_is_discarded (u1 u2 : utils) (s : session_state)
        (f1 : features u1) (f2 : features u2) :
  visual_feature_extraction u1 (path_of (video_path s)) = Ok f1 ->
  visual_feature_extraction u2 (path_of (video_path s)) = Ok f2 ->
  (forall p, deep_lip_decode u1 p = deep_lip_decode u2 p) ->
  (forall text code,
      translate_content u1 text code = translate_content u2 text code) ->
  analyze u1 s = analyze u2 s /\
  displayed_result (trace_of (analyze u1 s)) =
    displayed_result (trace_of (analyze u2 s)).
Proof.
  intros Hv1 Hv2 Hd Ht.
  assert (E : analyze u1 s = analyze u2 s).
  { unfold analyze, bind, get, call, tell, ret; simpl.
    destruct (truthy (video_path s)); simpl; [| reflexivity].
    rewrite Hv1, Hv2; simpl.
    rewrite Hd.
    destruct (deep_lip_decode u2 (path_of (video_path s))) as [raw|e]; simpl;
      [| reflexivity].
    rewrite Ht. reflexivity. }
  split; [exact E | rewrite E; reflexivity].
Qed.

Lemma visual_answer_is_discarded_witness :
  analyze (demo_utils 0) demo_session = analyze (demo_utils 7) demo_session /\
  displayed_result (trace_of (analyze (demo_utils 0) demo_session)) =
    displayed_result (trace_of (analyze (demo_utils 7) demo_session)).
Proof.
  apply (visual_answer_is_discarded (demo_utils 0) (demo_utils 7) demo_session
           0%nat 7%nat); reflexivity.
Defined.

(** C7, as stated, fails: in a run where every collaborator answers, the
    visual collaborator is called while the bar still shows the 0 % label;
    the label of its stage (40 %) comes after the call. *)
Lemma visual_label_follows_work :
  ~ (forall st,
        label_precedes_work (trace_of (analyze (demo_utils 0) demo_session)) st
        = true).
Proof.
  intros H. specialize (H ExtractingVisualFeatures).
  vm_compute in H. discriminate.
Qed.

(** C7, amended: each of the five stages has exactly one progress event.
    The labels of DecodingSpeech, Translating and Complete are emitted
    before the stage's work (the decoder call, the translation call, the
    result box); Initializing has no work.  The visual collaborator is
    called after the 0 % event and before the 40 % event that names its
    stage. *)
Theorem progress_labels_and_work (u : utils) (s : session_state) (p : string)
        (f : features u) (raw translated : string) :
  video_path s = Some p ->
  p <> EmptyString ->
  visual_feature_extraction u p = Ok f ->
  deep_lip_decode u p = Ok raw ->
  translate_content u raw (target_lang_code s) = Ok translated ->
  (forall st, count_labels (trace_of (analyze u s)) st = 1%nat) /\
  label_precedes_work (trace_of (analyze u s)) Initializing = true /\
  label_precedes_work (trace_of (analyze u s)) DecodingSpeech = true /\
  label_precedes_work (trace_of (analyze u s)) Translating = true /\
  label_precedes_work (trace_of (analyze u s)) Complete = true /\
  index_of (is_stage_label Initializing) (trace_of (analyze u s)) = Some 0%nat /\
  index_of (is_stage_work ExtractingVisualFeatures) (trace_of (analyze u s))
    = Some 2%nat /\
  index_of (is_stage_label ExtractingVisualFeatures) (trace_of (analyze u s))
    = Some 3%nat.
Proof.
  intros Hp Hne Hv Hd Ht.
  rewrite (analyze_run u s p f raw translated Hp Hne Hv Hd Ht).
  split; [intros st; destruct st; reflexivity |].
  repeat split.
Qed.

Lemma progress_labels_and_work_witness :
  (forall st,
      count_labels (trace_of (analyze (demo_utils 0) demo_session)) st = 1%nat) /\
  label_precedes_work (trace_of (analyze (demo_utils 0) demo_session))
    Initializing = true /\
  label_precedes_work (trace_of (analyze (demo_utils 0) demo_session))
    DecodingSpeech = true /\
  label_precedes_work (trace_of (analyze (demo_utils 0) demo_session))
    Translating = true /\
  label_precedes_work (trace_of (analyze (demo_utils 0) demo_session))
    Complete = true /\
  index_of (is_stage_label Initializing)
    (trace_of (analyze (demo_utils 0) demo_session)) = Some 0%nat /\
  index_of (is_stage_work ExtractingVisualFeatures)
    (trace_of (analyze (demo_utils 0) demo_session)) = Some 2%nat /\
  index_of (is_stage_label ExtractingVisualFeatures)
    (trace_of (analyze (demo_utils 0) demo_session)) = Some 3%nat.
Proof.
  apply (progress_labels_and_work (demo_utils 0) demo_session "clip.mp4"
           0%nat "heard in clip.mp4" "hi: heard in clip.mp4");
    [reflexivity | discriminate | reflexivity | reflexivity | reflexivity].
Defined.

(** ** The recorder *)

Lemma Qltb_true (x y : Q) : Qltb x y = true <-> (x < y)%Q.
Proof.
  unfold Qltb. rewrite negb_true_iff. split; intros H.
  - apply Qnot_le_lt. intros Hle. apply Qle_bool_iff in Hle. congruence.
  - destruct (Qle_bool y x) eqn:E; [| reflexivity].
    apply Qle_bool_iff in E. exfalso. exact (Qlt_not_le _ _ H E).
Qed.

Lemma Qltb_false (x y : Q) : Qltb x y = false <-> (y <= x)%Q.
Proof.
  unfold Qltb. rewrite negb_false_iff. apply Qle_bool_iff.
Qed.

Lemma written_frames_app (a b : list event) :
  written_frames (a ++ b) = written_frames a ++ written_frames b.
Proof. unfold written_frames. apply flat_map_app. Qed.

Lemma audio_sample_counts_app (a b : list event) :
  audio_sample_counts (a ++ b) = audio_sample_counts a ++ audio_sample_counts b.
Proof. unfold audio_sample_counts. apply flat_map_app. Qed.

(** One full iteration of the loop. *)
Lemma recording_loop_step (w : world) (d : Q) (fuel i : nat)
      (s : session_state) (f : frame) :
  Qltb (elapsed w i) d = true ->
  cap_read w i = Some f ->
  out_write w i = None ->
  preview w i = None ->
  recording_loop w d (clock w 0%nat) (S fuel) i s =
    (result_of (recording_loop w d (clock w 0%nat) fuel (S i) s),
     state_of (recording_loop w d (clock w 0%nat) fuel (S i) s),
     WriterWrite f :: StImage (cvtColor_BGR2RGB f) "Recording..."
       :: trace_of (recording_loop w d (clock w 0%nat) fuel (S i) s)).
Proof.
  intros Ht Hr Hw Hp. simpl. unfold elapsed in Ht. rewrite Ht, Hr, Hw, Hp.
  unfold bind, perform, tell; simpl.
  destruct (recording_loop w d (clock w 0%nat) fuel (S i) s) as [[o s'] t].
  destruct o; reflexivity.
Qed.

(** The loop never touches the session. *)
Lemma recording_loop_state (w : world) (d : Q) (fuel : nat) :
  forall i s, state_of (recording_loop w d (clock w 0%nat) fuel i s) = s.
Proof.
  induction fuel as [|fuel IH]; intros i s; [reflexivity |].
  simpl.
  destruct (Qltb (clock w (S i) - clock w 0%nat) d); [| reflexivity].
  destruct (cap_read w i) as [f|]; [| reflexivity].
  unfold bind, perform, tell.
  destruct (out_write w i); [reflexivity |]; simpl.
  destruct (preview w i); [reflexivity |]; simpl.
  specialize (IH (S i) s).
  destruct (recording_loop w d (clock w 0%nat) fuel (S i) s) as [[o s'] t].
  unfold state_of in IH; simpl in IH. subst s'.
  destruct o; reflexivity.
Qed.

(** Whatever the outcome, a frame is written only after a loop test that
    found the elapsed time below [d]. *)
Lemma recording_loop_frames_in_time (w : world) (d : Q) (fuel : nat) :
  forall i s j,
    (j < List.length
           (written_frames
              (trace_of (recording_loop w d (clock w 0%nat) fuel i s))))%nat ->
    (elapsed w (i + j) < d)%Q.
Proof.
  induction fuel as [|fuel IH]; intros i s j Hj; [simpl in Hj; lia |].
  simpl in Hj.
  destruct (Qltb (clock w (S i) - clock w 0%nat) d) eqn:Ht;
    [| simpl in Hj; lia].
  destruct (cap_read w i) as [f|]; [| simpl in Hj; lia].
  unfold bind, perform, tell in Hj.
  destruct (out_write w i); [simpl in Hj; lia |]; simpl in Hj.
  destruct (preview w i).
  { simpl in Hj. assert (j = 0%nat) by lia. subst j.
    rewrite Nat.add_0_r. apply Qltb_true. exact Ht. }
  simpl in Hj.
  specialize (IH (S i) s).
  destruct (recording_loop w d (clock w 0%nat) fuel (S i) s) as [[o s'] t].
  assert (Hlen : (j < S (List.length (written_frames t)))%nat).
  { destruct o; simpl in Hj; exact Hj. }
  clear Hj.
  destruct j as [|j].
  - rewrite Nat.add_0_r. apply Qltb_true. exact Ht.
  - replace (i + S j)%nat with (S i + j)%nat by lia.
    apply IH. unfold trace_of; simpl.
    apply PeanoNat.lt_S_n. exact Hlen.
Qed.

Lemma loop_events_succ (w : world) (i k : nat) (f : frame) :
  cap_read w i = Some f ->
  loop_events w i (S k) =
    WriterWrite f :: StImage (cvtColor_BGR2RGB f) "Recording..."
      :: loop_events w (S i) k.
Proof.
  intros H. unfold loop_events; simpl. unfold iter_events at 1.
  rewrite H. reflexivity.
Qed.

(** [k] fault-free iterations that deliver a frame, then a test that leaves
    the loop: with more than [k] units of fuel the loop returns, having
    logged exactly those [k] frames. *)
Lemma recording_loop_until_stop (w : world) (d : Q) :
  forall k fuel i s,
    (forall j, (j < k)%nat ->
               stops_at w d (i + j) = false /\
               out_write w (i + j) = None /\ preview w (i + j) = None) ->
    stops_at w d (i + k) = true ->
    (k < fuel)%nat ->
    recording_loop w d (clock w 0%nat) fuel i s
    = (Returned tt, s, loop_events w i k).
Proof.
  induction k as [|k IH]; intros fuel i s Hgo Hstop Hfuel.
  - destruct fuel as [|fuel]; [lia |].
    rewrite Nat.add_0_r in Hstop. unfold stops_at, elapsed in Hstop.
    simpl.
    destruct (Qltb (clock w (S i) - clock w 0%nat) d); [| reflexivity].
    destruct (cap_read w i); [discriminate | reflexivity].
  - destruct fuel as [|fuel]; [lia |].
    destruct (Hgo 0%nat ltac:(lia)) as (H0 & Hw & Hp).
    rewrite Nat.add_0_r in H0, Hw, Hp.
    unfold stops_at in H0. apply orb_false_iff in H0. destruct H0 as [Ht Hr].
    apply negb_false_iff in Ht.
    destruct (cap_read w i) as [f|] eqn:Hf; [| discriminate].
    rewrite (recording_loop_step w d fuel i s f Ht Hf Hw Hp).
    rewrite (IH fuel (S i) s).
    + rewrite (loop_events_succ w i k f Hf). reflexivity.
    + intros j Hj. replace (S i + j)%nat with (i + S j)%nat by lia.
      apply Hgo. lia.
    + replace (S i + k)%nat with (i + S k)%nat by lia. exact Hstop.
    + lia.
Qed.

(** The first index at which a boolean test holds. *)
Lemma least_true (P : nat -> bool) (n : nat) :
  P n = true ->
  exists k, (k <= n)%nat /\ P k = true /\ forall j, (j < k)%nat -> P j = false.
Proof.
  intros Hn.
  assert (H : forall m,
             (forall j, (j <= m)%nat -> P j = false) \/
             (exists k, (k <= m)%nat /\ P k = true /\
                        forall j, (j < k)%nat -> P j = false)).
  { induction m as [|m [IH|IH]].
    - destruct (P 0%nat) eqn:E.
      + right. exists 0%nat. repeat split; [lia | exact E | intros j Hj; lia].
      + left. intros j Hj. assert (j = 0%nat) by lia. subst j. exact E.
    - destruct (P (S m)) eqn:E.
      + right. exists (S m). repeat split; [lia | exact E |].
        intros j Hj. apply IH. lia.
      + left. intros j Hj.
        destruct (Nat.eq_dec j (S m)) as [->|Hne]; [exact E | apply IH; lia].
    - right. destruct IH as (k & Hk & Pk & Hmin).
      exists k. repeat split; [lia | exact Pk | exact Hmin]. }
  destruct (H n) as [Hnone | Hsome]; [| exact Hsome].
  rewrite (Hnone n (Nat.le_refl n)) in Hn. discriminate.
Qed.

Lemma loop_events_frames (w : world) :
  forall k i,
    (forall j, (j < k)%nat -> cap_read w (i + j) <> None) ->
    List.length (written_frames (loop_events w i k)) = k.
Proof.
  induction k as [|k IH]; intros i H; [reflexivity |].
  destruct (cap_read w i) as [f|] eqn:Hf.
  - rewrite (loop_events_succ w i k f Hf). simpl. f_equal.
    apply IH. intros j Hj. replace (S i + j)%nat with (i + S j)%nat by lia.
    apply H. lia.
  - exfalso. apply (H 0%nat); [lia | rewrite Nat.add_0_r; exact Hf].
Qed.

Lemma loop_events_written (w : world) (k : nat) :
  written_frames (loop_events w 0 k) = frames_read w k.
Proof.
  unfold loop_events, frames_read, written_frames.
  generalize (seq 0 k) as l. induction l as [|i l IH]; [reflexivity |].
  simpl. rewrite flat_map_app, IH. f_equal.
  unfold iter_events. destruct (cap_read w i); reflexivity.
Qed.

Lemma loop_events_no_report (w : world) (i k : nat) :
  existsb is_error_report (loop_events w i k) = false.
Proof.
  unfold loop_events. generalize (seq i k) as l.
  induction l as [|a l IH]; [reflexivity |].
  simpl. rewrite existsb_app, IH, orb_false_r.
  unfold iter_events. destruct (cap_read w a); reflexivity.
Qed.

(** [capture_phase] is the loop between its prologue and, when the loop
    returns, its epilogue. *)
Lemma capture_phase_unfold (w : world) (fuel : nat) (d : Q) (s : session_state) :
  capture_phase w fuel d s =
    match recording_loop w d (clock w 0%nat) fuel 0 s with
    | (Returned _, s1, t) =>
        (Returned tt, s1, capture_prologue w d ++ t ++ capture_epilogue w d)
    | (Raised e, s1, t) => (Raised e, s1, capture_prologue w d ++ t)
    | (OutOfFuel, s1, t) => (OutOfFuel, s1, capture_prologue w d ++ t)
    end.
Proof.
  unfold capture_phase, bind, tell; simpl.
  destruct (recording_loop w d (clock w 0%nat) fuel 0 s) as [[o s1] t].
  destruct o; reflexivity.
Qed.

Lemma record_av_segment_unfold (w : world) (fuel : nat) (d : Q) (s : session_state) :
  record_av_segment w fuel d s =
    match capture_phase w fuel d s with
    | (Returned _, s1, t) =>
        (result_of (merge_step w s1), state_of (merge_step w s1),
         t ++ trace_of (merge_step w s1))
    | (Raised e, s1, t) => (Raised e, s1, t)
    | (OutOfFuel, s1, t) => (OutOfFuel, s1, t)
    end.
Proof.
  unfold record_av_segment, bind.
  destruct (capture_phase w fuel d s) as [[o s1] t].
  destruct o; try reflexivity.
  destruct (merge_step w s1) as [[o2 s2] t2]. reflexivity.
Qed.

Lemma capture_phase_frames (w : world) (fuel : nat) (d : Q) (s : session_state) :
  written_frames (trace_of (capture_phase w fuel d s)) =
  written_frames (trace_of (recording_loop w d (clock w 0%nat) fuel 0 s)).
Proof.
  rewrite capture_phase_unfold.
  destruct (recording_loop w d (clock w 0%nat) fuel 0 s) as [[o s1] t].
  destruct o; unfold trace_of; simpl;
    rewrite ?written_frames_app; simpl; rewrite ?app_nil_r; reflexivity.
Qed.

Lemma loop_events_no_audio (w : world) (i k : nat) :
  audio_sample_counts (loop_events w i k) = [].
Proof.
  unfold loop_events, audio_sample_counts. generalize (seq i k) as l.
  induction l as [|a l IH]; [reflexivity |].
  simpl. rewrite flat_map_app, IH, app_nil_r.
  unfold iter_events. destruct (cap_read w a); reflexivity.
Qed.

(** [int] of a non-negative number is its floor. *)
Lemma py_int_floor (x : Q) :
  (0 <= x)%Q ->
  (inject_Z (py_int x) <= x)%Q /\ (x < inject_Z (py_int x) + 1)%Q.
Proof.
  destruct x as [a b]. unfold py_int, Qle, Qlt; simpl. intros H.
  assert (Ha : 0 <= a) by lia.
  rewrite Z.quot_div_nonneg by lia.
  pose proof (Z.div_mod a (Zpos b) ltac:(lia)) as Hdm.
  pose proof (Z.mod_pos_bound a (Zpos b) ltac:(lia)) as Hmod.
  split; nia.
Qed.

Lemma py_int_exact (x : Q) (z : Z) :
  (x == inject_Z z)%Q -> py_int x = z.
Proof.
  destruct x as [a b]. unfold py_int, Qeq; simpl. intros H.
  rewrite Z.mul_1_r in H. subst a. apply Z.quot_mul. lia.
Qed.

(** *** The number of frames asked of [sd.rec] *)

Lemma sd_rec_frames_whole (d : Q) (z : Z) :
  (d == inject_Z z)%Q -> sd_rec_frames d = z * fs.
Proof.
  intros H. unfold sd_rec_frames.
  assert (Hw : is_whole d = true).
  { destruct d as [a b]. unfold is_whole, Qeq in *; simpl in *.
    rewrite Z.mul_1_r in H. subst a. rewrite Z.mod_mul by lia. reflexivity. }
  rewrite Hw. apply py_int_exact.
  rewrite H. unfold Qeq; simpl. lia.
Qed.

Lemma scaled_pos (a b e : Z) :
  0 < a -> 0 < b -> 0 < fst (scaled a b e) /\ 0 < snd (scaled a b e).
Proof.
  intros Ha Hb. unfold scaled.
  destruct (0 <=? e) eqn:He; simpl.
  - apply Z.leb_le in He. split; [exact Ha |].
    apply Z.mul_pos_pos; [exact Hb | apply Z.pow_pos_nonneg; lia].
  - apply Z.leb_gt in He. split; [| exact Hb].
    apply Z.mul_pos_pos; [exact Ha | apply Z.pow_pos_nonneg; lia].
Qed.

Lemma round_half_even_nonneg (n d : Z) :
  0 < n -> 0 < d -> 0 <= round_half_even n d.
Proof.
  intros Hn Hd. unfold round_half_even.
  assert (H : 0 <= n / d) by (apply Z.div_pos; lia).
  destruct (2 * (n mod d) ?= d); [destruct (Z.even (n / d)) | |]; lia.
Qed.

Lemma round_pos_nonneg (a b : Z) :
  0 < a -> 0 < b -> 0 <= Qnum (round_pos a b).
Proof.
  intros Ha Hb. unfold round_pos.
  set (e := Z.max (floor_log2 a b - 52) (-1074)).
  destruct (scaled_pos a b e Ha Hb) as [Hn Hd].
  destruct (scaled a b e) as [n d]; simpl in Hn, Hd.
  pose proof (round_half_even_nonneg n d Hn Hd) as Hm.
  destruct (0 <=? e) eqn:He; simpl; [| exact Hm].
  apply Z.leb_le in He. apply Z.mul_nonneg_nonneg; [exact Hm |].
  apply Z.pow_nonneg; lia.
Qed.

Lemma py_float_nonneg (x : Q) : 0 <= Qnum x -> 0 <= Qnum (py_float x).
Proof.
  intros H. unfold py_float. destruct (Qnum x) as [|p|p] eqn:E.
  - simpl; lia.
  - apply round_pos_nonneg; lia.
  - lia.
Qed.

Lemma py_int_nonneg (x : Q) : 0 <= Qnum x -> 0 <= py_int x.
Proof. intros H. unfold py_int. apply Z.quot_pos; lia. Qed.

(** A positive duration never asks for a negative number of frames. *)
Lemma sd_rec_frames_nonneg (d : Q) : (0 < d)%Q -> 0 <= sd_rec_frames d.
Proof.
  intros Hd. assert (Hn : 0 < Qnum d).
  { unfold Qlt in Hd; simpl in Hd. lia. }
  unfold sd_rec_frames, py_float_mul. destruct (is_whole d).
  - apply py_int_nonneg. simpl. unfold fs. lia.
  - apply py_int_nonneg, py_float_nonneg. simpl.
    pose proof (py_float_nonneg d ltac:(lia)). unfold fs. lia.
Qed.

Lemma round_half_even_exact (m d : Z) :
  0 < d -> round_half_even (m * d) d = m.
Proof.
  intros Hd. unfold round_half_even.
  rewrite Z.div_mul by lia. rewrite Z.mod_mul by lia.
  destruct d; simpl; lia.
Qed.

(** A whole number below [2 ^ 53] is a float: rounding leaves it as it is,
    written over a power of two. *)
Lemma round_pos_exact (N j a b : Z) :
  0 < N < 2 ^ 53 -> 0 <= j -> b = 2 ^ j -> a = N * b ->
  exists t, 0 <= t /\
            Qnum (round_pos a b) = N * 2 ^ t /\
            Zpos (Qden (round_pos a b)) = 2 ^ t.
Proof.
  intros HN Hj -> ->.
  assert (Hpj : 0 < 2 ^ j) by (apply Z.pow_pos_nonneg; lia).
  assert (HL : 0 <= Z.log2 N) by apply Z.log2_nonneg.
  assert (HL52 : Z.log2 N < 53) by (apply Z.log2_lt_pow2; lia).
  destruct (Z.log2_spec N ltac:(lia)) as [Hlo Hhi].
  assert (Hfl : floor_log2 (N * 2 ^ j) (2 ^ j) = Z.log2 N).
  { unfold floor_log2.
    rewrite Z.log2_mul_pow2 by lia. rewrite Z.log2_pow2 by lia.
    replace (j + Z.log2 N - j) with (Z.log2 N) by lia.
    unfold scaled. destruct (0 <=? Z.log2 N) eqn:E; [| apply Z.leb_gt in E; lia].
    destruct (2 ^ j * 2 ^ Z.log2 N <=? N * 2 ^ j) eqn:E2; [reflexivity |].
    apply Z.leb_gt in E2. nia. }
  unfold round_pos. rewrite Hfl.
  replace (Z.max (Z.log2 N - 52) (-1074)) with (Z.log2 N - 52) by lia.
  unfold scaled.
  destruct (0 <=? Z.log2 N - 52) eqn:E.
  - apply Z.leb_le in E. assert (E52 : Z.log2 N - 52 = 0) by lia.
    rewrite E52. simpl (2 ^ 0). rewrite !Z.mul_1_r.
    rewrite round_half_even_exact by lia.
    exists 0. simpl. repeat split; lia.
  - apply Z.leb_gt in E.
    replace (N * 2 ^ j * 2 ^ (- (Z.log2 N - 52)))
      with (N * 2 ^ (- (Z.log2 N - 52)) * 2 ^ j) by ring.
    rewrite round_half_even_exact by lia.
    exists (- (Z.log2 N - 52)).
    assert (Hp : 0 < 2 ^ (- (Z.log2 N - 52))) by (apply Z.pow_pos_nonneg; lia).
    simpl. rewrite Z2Pos.id by lia. repeat split; lia.
Qed.

Lemma py_float_exact (N j : Z) (x : Q) :
  0 < N < 2 ^ 53 -> 0 <= j ->
  Zpos (Qden x) = 2 ^ j -> Qnum x = N * 2 ^ j ->
  exists t, 0 <= t /\
            Qnum (py_float x) = N * 2 ^ t /\
            Zpos (Qden (py_float x)) = 2 ^ t.
Proof.
  intros HN Hj Hd Hn.
  assert (Hpj : 0 < 2 ^ j) by (apply Z.pow_pos_nonneg; lia).
  unfold py_float. destruct (Qnum x) as [|p|p] eqn:E; try nia.
  apply (round_pos_exact N j); [exact HN | exact Hj | exact Hd |].
  rewrite Hd. exact Hn.
Qed.

(** A float with a whole value gives the same count as the int of that
    value, as long as the product is below [2 ^ 53]. *)
Lemma whole_float_counts_as_int (z : Z) :
  0 < z -> z * fs < 2 ^ 53 ->
  py_int (py_float_mul (py_float (inject_Z z)) (inject_Z fs))
  = sd_rec_frames (inject_Z z).
Proof.
  intros Hz Hprod.
  rewrite (sd_rec_frames_whole (inject_Z z) z) by reflexivity.
  assert (Hz53 : 0 < z < 2 ^ 53) by (unfold fs in Hprod; lia).
  destruct (py_float_exact z 0 (inject_Z z) Hz53 ltac:(lia))
    as (t & Ht & Hnum & Hden); [reflexivity | simpl; lia |].
  assert (Hpt : 0 < 2 ^ t) by (apply Z.pow_pos_nonneg; lia).
  unfold py_float_mul.
  destruct (py_float_exact (z * fs) t (py_float (inject_Z z) * inject_Z fs))
    as (t' & Ht' & Hnum' & Hden').
  - unfold fs in *. lia.
  - exact Ht.
  - simpl. rewrite Pos.mul_1_r. exact Hden.
  - simpl. rewrite Hnum. unfold fs. ring.
  - unfold py_int. rewrite Hnum', Hden'.
    apply Z.quot_mul. apply Z.pow_nonzero; lia.
Qed.

(** The float products the model computes at some fractional durations:
    [0.3 * 44100] is [13230.0] although the float [0.3] is below 3/10, and
    [0.7 * 44100] is [30869.999999999996]. *)
Example sd_rec_frames_at_floats :
  sd_rec_frames (3 # 10) = 13230 /\
  sd_rec_frames (5404319552844595 # 18014398509481984) = 13230 /\
  sd_rec_frames (7 # 10) = 30869 /\
  sd_rec_frames (1 # 2) = 22050 /\
  sd_rec_frames (1 # 100000) = 0.
Proof. repeat split; vm_compute; reflexivity. Qed.

(** C3, as stated, fails on the audio side: for a duration of 1/100000 s the
    capture returns, and the buffer written to the WAV file has [int(0.441)]
    = 0 samples, which is not [duration * 44100]. *)
Lemma truncated_sample_count :
  (0 < 1 # 100000)%Q /\
  result_of (capture_phase steady_world 5 (1 # 100000) demo_session)
    = Returned tt /\
  audio_sample_counts
    (trace_of (capture_phase steady_world 5 (1 # 100000) demo_session)) = [0] /\
  ~ (inject_Z 0 == (1 # 100000) * inject_Z fs)%Q.
Proof.
  split; [reflexivity |].
  split; [vm_compute; reflexivity |].
  split; [vm_compute; reflexivity |].
  unfold Qeq; simpl. discriminate.
Qed.

(** C3, amended: let the duration be positive, the clock reach it at some
    loop test [n], and no write or preview raise.  Then with enough fuel the
    capture returns; every frame in the video file was read after a loop
    test that found less than [duration] seconds elapsed; and the audio
    buffer written has [int(duration * 44100)] samples as Python computes
    them: never a negative number, and exactly [duration * 44100] when the
    duration is a whole number of seconds.  (For a fractional duration the
    count is the truncated float product, which need not be the product.) *)
Theorem capture_within_duration (w : world) (duration : Q) (n fuel : nat)
        (s : session_state) :
  (0 < duration)%Q ->
  (duration <= elapsed w n)%Q ->
  (forall i, out_write w i = None /\ preview w i = None) ->
  (n < fuel)%nat ->
  result_of (capture_phase w fuel duration s) = Returned tt /\
  (forall j,
      (j < List.length
             (written_frames (trace_of (capture_phase w fuel duration s))))%nat ->
      (elapsed w j < duration)%Q) /\
  audio_sample_counts (trace_of (capture_phase w fuel duration s))
    = [sd_rec_frames duration] /\
  0 <= sd_rec_frames duration /\
  (forall z, (duration == inject_Z z)%Q -> sd_rec_frames duration = z * fs).
Proof.
  intros Hpos Hdead Hclean Hfuel.
  assert (Hstop : stops_at w duration n = true).
  { unfold stops_at. apply orb_true_iff. left. apply negb_true_iff.
    apply Qltb_false. exact Hdead. }
  destruct (least_true (stops_at w duration) n Hstop) as (k & Hk & Sk & Hmin).
  assert (Hloop : recording_loop w duration (clock w 0%nat) fuel 0 s
                  = (Returned tt, s, loop_events w 0 k)).
  { apply recording_loop_until_stop.
    - intros j Hj; simpl. split; [apply Hmin; exact Hj | apply Hclean].
    - simpl. exact Sk.
    - lia. }
  split.
  { rewrite capture_phase_unfold, Hloop. reflexivity. }
  split.
  { intros j Hj. rewrite capture_phase_frames in Hj.
    apply (recording_loop_frames_in_time w duration fuel 0%nat s j Hj). }
  split.
  { rewrite capture_phase_unfold, Hloop. unfold trace_of; simpl.
    rewrite audio_sample_counts_app, loop_events_no_audio. reflexivity. }
  split; [apply sd_rec_frames_nonneg; exact Hpos |].
  intros z Hz. apply sd_rec_frames_whole. exact Hz.
Qed.

Lemma capture_within_duration_witness :
  result_of (capture_phase steady_world 5 (3 # 1) demo_session) = Returned tt /\
  (forall j,
      (j < List.length
             (written_frames
                (trace_of (capture_phase steady_world 5 (3 # 1) demo_session))))%nat ->
      (elapsed steady_world j < 3 # 1)%Q) /\
  audio_sample_counts
    (trace_of (capture_phase steady_world 5 (3 # 1) demo_session))
    = [sd_rec_frames (3 # 1)] /\
  0 <= sd_rec_frames (3 # 1) /\
  (forall z, ((3 # 1) == inject_Z z)%Q -> sd_rec_frames (3 # 1) = z * fs).
Proof.
  apply (capture_within_duration steady_world (3 # 1) 2 5 demo_session).
  - reflexivity.
  - unfold Qle; simpl; lia.
  - intros i; split; reflexivity.
  - lia.
Defined.

(** The bound above is on the time at which frames are read, not on the
    length of the file: a camera that answers every 10 ms fills a one-second
    recording with 99 frames, which play for 4.95 s at 20 frames per
    second. *)
Remark playback_can_exceed_duration :
  result_of (capture_phase fast_camera_world 200 (1 # 1) demo_session)
    = Returned tt /\
  (playback_length
     (trace_of (capture_phase fast_camera_world 200 (1 # 1) demo_session))
   == 99 # 20)%Q /\
  (1 # 1 < 99 # 20)%Q.
Proof. repeat split; vm_compute; reflexivity. Qed.

(** C4, as stated, fails on one point: when the second read fails two
    seconds into a 60 s recording, the capture ends normally and nothing
    signals the failed read: no exception, no error or warning on the
    page. *)
Lemma read_failure_is_silent :
  cap_read failing_camera_world 1 = None /\
  (elapsed failing_camera_world 1 < 60 # 1)%Q /\
  result_of (capture_phase failing_camera_world 5 (60 # 1) demo_session)
    = Returned tt /\
  error_signalled
    (capture_phase failing_camera_world 5 (60 # 1) demo_session) = false.
Proof.
  split; [reflexivity |].
  split; [reflexivity |].
  split; vm_compute; reflexivity.
Qed.

(** C4, amended: let the first [k] iterations deliver their frames in time
    and without fault, and the read of iteration [k] fail at an elapsed time
    below [duration].  Then the loop ends there; the capture returns with
    exactly those [k] frames written to the video file; the camera and the
    writer are released; the audio buffer written has the full
    [int(duration * 44100)] samples asked for at the start; the routine goes
    on to the merge; and the capture signals no error at all. *)
Theorem read_failure_keeps_partial_video (w : world) (duration : Q)
        (k fuel : nat) (s : session_state) :
  (forall j, (j < k)%nat ->
             stops_at w duration j = false /\
             out_write w j = None /\ preview w j = None) ->
  cap_read w k = None ->
  (elapsed w k < duration)%Q ->
  (k < fuel)%nat ->
  capture_phase w fuel duration s =
    (Returned tt, s,
     capture_prologue w duration ++ loop_events w 0 k
       ++ capture_epilogue w duration) /\
  written_frames (trace_of (capture_phase w fuel duration s)) = frames_read w k /\
  List.length (frames_read w k) = k /\
  audio_sample_counts (trace_of (capture_phase w fuel duration s))
    = [sd_rec_frames duration] /\
  error_signalled (capture_phase w fuel duration s) = false /\
  result_of (record_av_segment w fuel duration s) = result_of (merge_step w s).
Proof.
  intros Hgo Hfail Htime Hfuel.
  assert (Hloop : recording_loop w duration (clock w 0%nat) fuel 0 s
                  = (Returned tt, s, loop_events w 0 k)).
  { apply recording_loop_until_stop.
    - intros j Hj; simpl. apply Hgo; exact Hj.
    - simpl. unfold stops_at. rewrite Hfail. apply orb_true_r.
    - exact Hfuel. }
  assert (Hcap : capture_phase w fuel duration s =
                 (Returned tt, s,
                  capture_prologue w duration ++ loop_events w 0 k
                    ++ capture_epilogue w duration)).
  { rewrite capture_phase_unfold, Hloop. reflexivity. }
  split; [exact Hcap |].
  split.
  { rewrite capture_phase_frames, Hloop. apply loop_events_written. }
  split.
  { rewrite <- loop_events_written. apply loop_events_frames.
    intros j Hj; simpl. destruct (Hgo j Hj) as (Hs & _).
    unfold stops_at in Hs. apply orb_false_iff in Hs. destruct Hs as [_ Hr].
    destruct (cap_read w j); [discriminate | discriminate]. }
  split.
  { rewrite Hcap. unfold trace_of; simpl.
    rewrite audio_sample_counts_app, loop_events_no_audio. reflexivity. }
  split.
  { rewrite Hcap. unfold error_signalled, result_of, trace_of; simpl.
    rewrite existsb_app, loop_events_no_report. reflexivity. }
  rewrite record_av_segment_unfold, Hcap. reflexivity.
Qed.

Lemma read_failure_keeps_partial_video_witness :
  capture_phase failing_camera_world 5 (60 # 1) demo_session =
    (Returned tt, demo_session,
     capture_prologue failing_camera_world (60 # 1)
       ++ loop_events failing_camera_world 0 1
       ++ capture_epilogue failing_camera_world (60 # 1)) /\
  written_frames
    (trace_of (capture_phase failing_camera_world 5 (60 # 1) demo_session))
    = frames_read failing_camera_world 1 /\
  List.length (frames_read failing_camera_world 1) = 1%nat /\
  audio_sample_counts
    (trace_of (capture_phase failing_camera_world 5 (60 # 1) demo_session))
    = [sd_rec_frames (60 # 1)] /\
  error_signalled (capture_phase failing_camera_world 5 (60 # 1) demo_session)
    = false /\
  result_of (record_av_segment failing_camera_world 5 (60 # 1) demo_session)
    = result_of (merge_step failing_camera_world demo_session).
Proof.
  apply (read_failure_keeps_partial_video failing_camera_world (60 # 1) 1 5
           demo_session).
  - intros j Hj. assert (j = 0%nat) by lia. subst j.
    repeat split; reflexivity.
  - reflexivity.
  - reflexivity.
  - lia.
Defined.

(** C8, as stated, fails: when the preview of the second frame raises, the
    exception leaves [record_av_segment] with the camera not released and
    the audio recording not waited for. *)
Lemma preview_failure_leaks_devices :
  result_of (record_av_segment failing_preview_world 5 (60 # 1) demo_session)
    = Raised (PyException "preview failed") /\
  camera_released
    (trace_of (record_av_segment failing_preview_world 5 (60 # 1) demo_session))
    = false /\
  audio_finished
    (trace_of (record_av_segment failing_preview_world 5 (60 # 1) demo_session))
    = false.
Proof. repeat split; vm_compute; reflexivity. Qed.

(** Nothing in the loop releases a device. *)
Lemma recording_loop_no_release (w : world) (d : Q) (fuel : nat) :
  forall i s,
    camera_released (trace_of (recording_loop w d (clock w 0%nat) fuel i s)) = false /\
    writer_released (trace_of (recording_loop w d (clock w 0%nat) fuel i s)) = false /\
    audio_finished (trace_of (recording_loop w d (clock w 0%nat) fuel i s)) = false.
Proof.
  induction fuel as [|fuel IH]; intros i s; [repeat split |].
  simpl.
  destruct (Qltb (clock w (S i) - clock w 0%nat) d); [| repeat split].
  destruct (cap_read w i) as [f|]; [| repeat split].
  unfold bind, perform, tell.
  destruct (out_write w i); [repeat split |]; simpl.
  destruct (preview w i); [repeat split |]; simpl.
  specialize (IH (S i) s).
  destruct (recording_loop w d (clock w 0%nat) fuel (S i) s) as [[o s'] t].
  unfold trace_of in IH; simpl in IH.
  destruct o; exact IH.
Qed.

(** C8, amended: the exit of the recording loop decides.  When the loop
    returns (time is up, or a read failed), the camera and the writer are
    released and the audio recording is waited for, whatever the merge then
    does.  When a call inside the loop raises, the exception leaves the
    routine and neither the release nor the wait has happened. *)
Theorem devices_released_when_loop_returns (w : world) (fuel : nat)
        (duration : Q) (s : session_state) :
  match result_of (recording_loop w duration (clock w 0%nat) fuel 0 s) with
  | Returned _ =>
      camera_released (trace_of (record_av_segment w fuel duration s)) = true /\
      writer_released (trace_of (record_av_segment w fuel duration s)) = true /\
      audio_finished (trace_of (record_av_segment w fuel duration s)) = true
  | Raised e =>
      result_of (record_av_segment w fuel duration s) = Raised e /\
      camera_released (trace_of (record_av_segment w fuel duration s)) = false /\
      writer_released (trace_of (record_av_segment w fuel duration s)) = false /\
      audio_finished (trace_of (record_av_segment w fuel duration s)) = false
  | OutOfFuel =>
      result_of (record_av_segment w fuel duration s) = OutOfFuel
  end.
Proof.
  rewrite record_av_segment_unfold, capture_phase_unfold.
  destruct (recording_loop_no_release w duration fuel 0%nat s) as (Hc & Hw & Ha).
  destruct (recording_loop w duration (clock w 0%nat) fuel 0 s) as [[o s1] t].
  unfold result_of, trace_of in *; simpl in *.
  unfold camera_released, writer_released, audio_finished in *.
  destruct o; simpl.
  - rewrite !existsb_app, Hc, Hw, Ha. simpl. repeat split.
  - rewrite Hc, Hw, Ha. repeat split.
  - reflexivity.
Qed.

(** ** The merge *)

Ltac fault_cases f := destruct f as [[?m | ?m] | ]; simpl.

(** The merge, by its first fault: none, one caught by [except Exception],
    or one that is not an [Exception]. *)
Lemma merge_step_run (w : world) (s : session_state) :
  state_of (merge_step w s) = s /\
  written_frames (trace_of (merge_step w s)) = [] /\
  match first_fault (merge_faults w) with
  | None =>
      result_of (merge_step w s) = Returned (final_output w) /\
      existsb is_error_report (trace_of (merge_step w s)) = false
  | Some (PyException m) =>
      result_of (merge_step w s) = Returned (temp_vid w) /\
      In (StError (append "Merge Error: " m)) (trace_of (merge_step w s))
  | Some (PyBaseException m) =>
      result_of (merge_step w s) = Raised (PyBaseException m) /\
      existsb is_error_report (trace_of (merge_step w s)) = false
  end.
Proof.
  unfold merge_step, merge_faults, try_except_Exception, try_except_pass,
    bind, perform, tell, raise, ret, result_of, state_of, trace_of.
  fault_cases (video_clip_open w); [auto 10 | auto 10 |].
  fault_cases (audio_clip_open w); [auto 10 | auto 10 |].
  fault_cases (set_audio w); [auto 10 | auto 10 |].
  fault_cases (write_videofile w); [auto 10 | auto 10 |].
  fault_cases (video_clip_close w); [auto 10 | auto 10 |].
  fault_cases (audio_clip_close w); [auto 12 | auto 12 |].
  fault_cases (remove_vid w); [auto 12 | auto 12 |].
  fault_cases (remove_audio w); auto 12.
Qed.

(** C2, as stated, fails: an exception that is not an [Exception], here a
    [KeyboardInterrupt] while the audio clip is opened, is not caught by
    [except Exception] and leaves [record_av_segment]. *)
Lemma interrupt_escapes_merge :
  audio_clip_open interrupted_merge_world
    = Some (PyBaseException "KeyboardInterrupt") /\
  result_of (merge_step interrupted_merge_world demo_session)
    = Raised (PyBaseException "KeyboardInterrupt") /\
  result_of (record_av_segment interrupted_merge_world 5 (3 # 1) demo_session)
    = Raised (PyBaseException "KeyboardInterrupt").
Proof. repeat split; vm_compute; reflexivity. Qed.

(** C2, amended: when every exception raised while opening the clips,
    attaching the audio, encoding, or closing the clips is an instance of
    [Exception], the merge never raises.  Without a fault it returns the
    merged file; at the first fault it reports "Merge Error: ..." with
    [st.error] and returns the path of the raw, silent video.  The session
    is left as it was. *)
Theorem merge_falls_back_to_silent_video (w : world) (s : session_state) :
  (forall e, In (Some e) (merge_faults w) -> is_Exception e = true) ->
  state_of (merge_step w s) = s /\
  match first_fault (merge_faults w) with
  | None => result_of (merge_step w s) = Returned (final_output w)
  | Some e =>
      result_of (merge_step w s) = Returned (temp_vid w) /\
      In (StError (append "Merge Error: " (exn_str e)))
         (trace_of (merge_step w s))
  end.
Proof.
  intros Hexc.
  destruct (merge_step_run w s) as (Hs & _ & Hrun).
  split; [exact Hs |].
  assert (Hin : forall e, first_fault (merge_faults w) = Some e ->
                          In (Some e) (merge_faults w)).
  { generalize (merge_faults w) as l.
    induction l as [|[x|] l IH]; intros e He; simpl in *.
    - discriminate.
    - left. exact He.
    - right. apply IH. exact He. }
  destruct (first_fault (merge_faults w)) as [[m|m]|] eqn:Ef.
  - exact Hrun.
  - specialize (Hexc _ (Hin _ eq_refl)). discriminate.
  - apply Hrun.
Qed.

Lemma merge_falls_back_to_silent_video_witness :
  state_of (merge_step corrupt_audio_world demo_session) = demo_session /\
  result_of (merge_step corrupt_audio_world demo_session)
    = Returned "/tmp/raw.mp4" /\
  In (StError "Merge Error: corrupt audio file")
     (trace_of (merge_step corrupt_audio_world demo_session)).
Proof.
  apply (merge_falls_back_to_silent_video corrupt_audio_world demo_session).
  intros e He. simpl in He.
  destruct He as [He | [He | [He | [He | [He | [He | []]]]]]];
    try discriminate.
  injection He as <-. reflexivity.
Defined.

(** ** Live input *)

(** C9: when "Start Recording" is pressed, the page announces "Records for
    2 MINUTES." and then runs [record_av_segment] with a duration of 60: the
    audio buffer is requested with 60 * 44100 = 2646000 samples (120 s would
    be 5292000), and every frame written was read after a loop test that
    found less than 60 s elapsed. *)
Theorem live_recording_is_60_seconds (w : world) (fuel : nat) (s : session_state) :
  (exists rest,
      trace_of (page4_live w fuel true s) =
        StInfo "Records for 2 MINUTES."
          :: trace_of (record_av_segment w fuel (60 # 1) s) ++ rest) /\
  (exists rest,
      trace_of (record_av_segment w fuel (60 # 1) s) =
        SdRec (mkRecording 2646000 44100 1) :: rest) /\
  2646000 = 60 * fs /\
  2646000 <> 120 * fs /\
  (forall j,
      (j < List.length (written_frames (trace_of (page4_live w fuel true s))))%nat ->
      (elapsed w j < 60 # 1)%Q).
Proof.
  assert (Hrec : forall r : outcome string * session_state * list event,
             r = record_av_segment w fuel (60 # 1) s ->
             written_frames (trace_of r) =
             written_frames
               (trace_of (recording_loop w (60 # 1) (clock w 0%nat) fuel 0 s))).
  { intros r ->. rewrite <- capture_phase_frames, record_av_segment_unfold.
    destruct (capture_phase w fuel (60 # 1) s) as [[o s1] t].
    destruct o; try reflexivity.
    destruct (merge_step_run w s1) as (_ & Hnf & _).
    unfold trace_of in *; simpl. rewrite written_frames_app, Hnf.
    apply app_nil_r. }
  assert (Hpage : exists rest,
             trace_of (page4_live w fuel true s) =
               StInfo "Records for 2 MINUTES."
                 :: trace_of (record_av_segment w fuel (60 # 1) s) ++ rest /\
             written_frames rest = []).
  { unfold page4_live, bind, tell, get, set_video_path, modify, ret; simpl.
    destruct (record_av_segment w fuel (60 # 1) s) as [[o s1] t].
    destruct o as [path| |]; unfold trace_of; simpl.
    - destruct path; simpl; rewrite <- app_assoc; eexists; split;
        reflexivity.
    - exists []. rewrite app_nil_r. split; reflexivity.
    - exists []. rewrite app_nil_r. split; reflexivity. }
  destruct Hpage as (rest & Hpage & Hrest).
  split; [exists rest; exact Hpage |].
  split.
  { rewrite record_av_segment_unfold, capture_phase_unfold.
    destruct (recording_loop w (60 # 1) (clock w 0%nat) fuel 0 s) as [[o s1] t].
    destruct o; unfold trace_of; simpl; eexists; reflexivity. }
  split; [reflexivity |].
  split; [unfold fs; lia |].
  intros j Hj.
  rewrite Hpage in Hj. simpl in Hj.
  rewrite written_frames_app, Hrest, app_nil_r in Hj.
  rewrite (Hrec _ eq_refl) in Hj.
  apply (recording_loop_frames_in_time w (60 # 1) fuel 0%nat s j Hj).
Qed.

(** * Further properties *)

(** ** What the handlers leave alone *)

Lemma analyze_state (u : utils) (s : session_state) :
  state_of (analyze u s) = s.
Proof.
  unfold analyze, bind, get, call, tell, ret, raise, state_of; simpl.
  destruct (truthy (video_path s)); simpl; [| reflexivity].
  destruct (visual_feature_extraction u (path_of (video_path s)));
    simpl; [| reflexivity].
  destruct (deep_lip_decode u (path_of (video_path s))) as [raw|];
    simpl; [| reflexivity].
  destruct (translate_content u raw (target_lang_code s));
    simpl; reflexivity.
Qed.

Lemma capture_phase_state (w : world) (fuel : nat) (d : Q) (s : session_state) :
  state_of (capture_phase w fuel d s) = s.
Proof.
  rewrite capture_phase_unfold.
  pose proof (recording_loop_state w d fuel 0%nat s) as H.
  destruct (recording_loop w d (clock w 0%nat) fuel 0 s) as [[o s1] t].
  unfold state_of in *; simpl in *. destruct o; exact H.
Qed.

Lemma record_av_segment_state (w : world) (fuel : nat) (d : Q)
      (s : session_state) :
  state_of (record_av_segment w fuel d s) = s.
Proof.
  rewrite record_av_segment_unfold.
  pose proof (capture_phase_state w fuel d s) as H.
  destruct (capture_phase w fuel d s) as [[o s1] t].
  unfold state_of in H; simpl in H. subst s1.
  destruct o; try reflexivity.
  destruct (merge_step_run w s) as (Hs & _). exact Hs.
Qed.

(** X1: neither the recorder nor the analyze handler writes to the session,
    whatever their outcome: only their callers set [video_path]. *)
Theorem recorder_and_analyze_keep_session (u : utils) (w : world) (fuel : nat)
        (d : Q) (s : session_state) :
  state_of (record_av_segment w fuel d s) = s /\
  state_of (analyze u s) = s.
Proof.
  split; [apply record_av_segment_state | apply analyze_state].
Qed.

(** ** Failing collaborators *)

(** X2: with a video path set, the handler stops at the first collaborator
    that raises: the exception leaves the handler, the later collaborators
    are not called, no result is shown and the progress bar is not cleared.
    This holds for the visual collaborator too, although its answer is not
    used. *)
Theorem analyze_stops_at_first_failure (u : utils) (s : session_state) :
  truthy (video_path s) = true ->
  let p := path_of (video_path s) in
  let r := analyze u s in
  match visual_feature_extraction u p with
  | Err e =>
      result_of r = Raised e /\
      collaborator_calls (trace_of r) = [CallVisual p] /\
      progress_values (trace_of r) = [0] /\
      displayed_result (trace_of r) = [] /\ bar_cleared (trace_of r) = false
  | Ok _ =>
      match deep_lip_decode u p with
      | Err e =>
          result_of r = Raised e /\
          collaborator_calls (trace_of r) = [CallVisual p; CallDecode p] /\
          progress_values (trace_of r) = [0; 40; 70] /\
          displayed_result (trace_of r) = [] /\
          bar_cleared (trace_of r) = false
      | Ok raw =>
          match translate_content u raw (target_lang_code s) with
          | Err e =>
              result_of r = Raised e /\
              collaborator_calls (trace_of r) =
                [CallVisual p; CallDecode p;
                 CallTranslate raw (target_lang_code s)] /\
              progress_values (trace_of r) = [0; 40; 70; 90] /\
              displayed_result (trace_of r) = [] /\
              bar_cleared (trace_of r) = false
          | Ok translated =>
              result_of r = Returned tt /\
              displayed_result (trace_of r) = [(translated, raw)] /\
              bar_cleared (trace_of r) = true
          end
      end
  end.
Proof.
  intros Ht p r. subst p r.
  unfold analyze, bind, get, call, tell, ret, raise, result_of, trace_of; simpl.
  rewrite Ht; simpl.
  destruct (visual_feature_extraction u (path_of (video_path s)));
    simpl; [| repeat split].
  destruct (deep_lip_decode u (path_of (video_path s))) as [raw|];
    simpl; [| repeat split].
  destruct (translate_content u raw (target_lang_code s));
    simpl; repeat split.
Qed.

Lemma analyze_stops_at_first_failure_witness :
  result_of (analyze (failing_utils 1) demo_session)
    = Raised (PyException "no audio track") /\
  collaborator_calls (trace_of (analyze (failing_utils 1) demo_session))
    = [CallVisual "clip.mp4"; CallDecode "clip.mp4"] /\
  progress_values (trace_of (analyze (failing_utils 1) demo_session))
    = [0; 40; 70] /\
  displayed_result (trace_of (analyze (failing_utils 1) demo_session)) = [] /\
  bar_cleared (trace_of (analyze (failing_utils 1) demo_session)) = false.
Proof.
  apply (analyze_stops_at_first_failure (failing_utils 1) demo_session).
  reflexivity.
Defined.

(** ** More on the recorder *)

Lemma recording_loop_events (w : world) (d : Q) (fuel : nat) :
  forall i s,
    forallb recorder_event
      (trace_of (recording_loop w d (clock w 0%nat) fuel i s)) = true.
Proof.
  induction fuel as [|fuel IH]; intros i s; [reflexivity |].
  simpl.
  destruct (Qltb (clock w (S i) - clock w 0%nat) d); [| reflexivity].
  destruct (cap_read w i) as [f|]; [| reflexivity].
  unfold bind, perform, tell.
  destruct (out_write w i); [reflexivity |]; simpl.
  destruct (preview w i); [reflexivity |]; simpl.
  specialize (IH (S i) s).
  destruct (recording_loop w d (clock w 0%nat) fuel (S i) s) as [[o s'] t].
  unfold trace_of in IH; simpl in IH.
  destruct o; exact IH.
Qed.

Lemma merge_step_events (w : world) (s : session_state) :
  forallb recorder_event (trace_of (merge_step w s)) = true.
Proof.
  unfold merge_step, try_except_Exception, try_except_pass,
    bind, perform, tell, raise, ret, trace_of.
  fault_cases (video_clip_open w); [reflexivity | reflexivity |].
  fault_cases (audio_clip_open w); [reflexivity | reflexivity |].
  fault_cases (set_audio w); [reflexivity | reflexivity |].
  fault_cases (write_videofile w); [reflexivity | reflexivity |].
  fault_cases (video_clip_close w); [reflexivity | reflexivity |].
  fault_cases (audio_clip_close w); [reflexivity | reflexivity |].
  fault_cases (remove_vid w); [reflexivity | reflexivity |].
  fault_cases (remove_audio w); reflexivity.
Qed.

Lemma record_av_segment_events (w : world) (fuel : nat) (d : Q)
      (s : session_state) :
  forallb recorder_event (trace_of (record_av_segment w fuel d s)) = true.
Proof.
  rewrite record_av_segment_unfold, capture_phase_unfold.
  pose proof (recording_loop_events w d fuel 0%nat s) as Hl.
  destruct (recording_loop w d (clock w 0%nat) fuel 0 s) as [[o s1] t].
  unfold trace_of in *; simpl in *.
  destruct o; simpl; try exact Hl.
  rewrite !forallb_app, Hl; simpl.
  apply (merge_step_events w s1).
Qed.

(** X3: whatever happens, [record_av_segment] only records, previews, merges
    and reports: its trace holds no call to a [utils] collaborator, no
    progress or result event, and no success or warning message. *)
Theorem recorder_never_calls_collaborators (w : world) (fuel : nat) (d : Q)
        (s : session_state) :
  forallb recorder_event (trace_of (record_av_segment w fuel d s)) = true /\
  collaborator_calls (trace_of (record_av_segment w fuel d s)) = [] /\
  progress_values (trace_of (record_av_segment w fuel d s)) = [] /\
  displayed_result (trace_of (record_av_segment w fuel d s)) = [].
Proof.
  pose proof (record_av_segment_events w fuel d s) as H.
  split; [exact H |].
  revert H. generalize (trace_of (record_av_segment w fuel d s)) as tr.
  induction tr as [|e tr IH]; intros H; [repeat split |].
  simpl in H. apply andb_true_iff in H. destruct H as [He Htr].
  destruct (IH Htr) as (Hc & Hp & Hd).
  unfold collaborator_calls, progress_values, displayed_result in *.
  destruct e; simpl in *; try discriminate; repeat split; assumption.
Qed.

(** The frames the loop writes, whatever its outcome, are the first frames
    the camera delivered, in order. *)
Lemma recording_loop_writes_prefix (w : world) (d : Q) (fuel : nat) :
  forall i s,
    written_frames (trace_of (recording_loop w d (clock w 0%nat) fuel i s)) =
    flat_map (fun j => match cap_read w j with Some f => [f] | None => [] end)
      (seq i (List.length
                (written_frames
                   (trace_of (recording_loop w d (clock w 0%nat) fuel i s))))).
Proof.
  induction fuel as [|fuel IH]; intros i s; [reflexivity |].
  simpl.
  destruct (Qltb (clock w (S i) - clock w 0%nat) d); [| reflexivity].
  destruct (cap_read w i) as [f|] eqn:Hf; [| reflexivity].
  unfold bind, perform, tell.
  destruct (out_write w i); [reflexivity |]; simpl.
  destruct (preview w i); simpl.
  { rewrite Hf. reflexivity. }
  specialize (IH (S i) s).
  destruct (recording_loop w d (clock w 0%nat) fuel (S i) s) as [[o s'] t].
  unfold trace_of in IH; simpl in IH.
  change (written_frames t =
          flat_map (fun j => match cap_read w j with
                             | Some f => [f]
                             | None => []
                             end)
            (seq (S i) (List.length (written_frames t)))) in IH.
  assert (E : forall t0 : list event,
             t0 = WriterWrite f
                    :: StImage (cvtColor_BGR2RGB f) "Recording..." :: t ->
             written_frames t0 =
             flat_map (fun j => match cap_read w j with
                                | Some f => [f]
                                | None => []
                                end)
               (seq i (List.length (written_frames t0)))).
  { intros t0 ->.
    change (written_frames (WriterWrite f
              :: StImage (cvtColor_BGR2RGB f) "Recording..." :: t))
      with (f :: written_frames t).
    simpl. rewrite Hf. simpl. f_equal. exact IH. }
  destruct o; exact (E _ eq_refl).
Qed.

Lemma record_av_segment_frames (w : world) (fuel : nat) (d : Q)
      (s : session_state) :
  written_frames (trace_of (record_av_segment w fuel d s)) =
  written_frames (trace_of (recording_loop w d (clock w 0%nat) fuel 0 s)).
Proof.
  rewrite <- capture_phase_frames, record_av_segment_unfold.
  destruct (capture_phase w fuel d s) as [[o s1] t].
  destruct o; try reflexivity.
  destruct (merge_step_run w s1) as (_ & Hnf & _).
  unfold trace_of in *; simpl. rewrite written_frames_app, Hnf.
  apply app_nil_r.
Qed.

(** X4: for every outcome of [record_av_segment], including an exception in
    the middle of the loop, the frames in the video file are exactly the
    first frames the camera delivered, in order: none is dropped, repeated
    or reordered. *)
Theorem video_file_is_prefix_of_camera (w : world) (fuel : nat) (d : Q)
        (s : session_state) :
  written_frames (trace_of (record_av_segment w fuel d s)) =
  frames_read w
    (List.length (written_frames (trace_of (record_av_segment w fuel d s)))).
Proof.
  rewrite record_av_segment_frames. unfold frames_read.
  apply (recording_loop_writes_prefix w d fuel 0%nat s).
Qed.

(** X5: when the camera is no faster than the writer's 20 frames per second,
    that is, when the test before read [j] comes at least [j / 20] seconds
    after the start, the video file plays for less than the duration asked
    for plus one frame period. *)
Theorem paced_camera_bounds_playback (w : world) (fuel : nat) (d : Q)
        (s : session_state) :
  (0 <= d)%Q ->
  (forall j, (inject_Z (Z.of_nat j) / fps <= elapsed w j)%Q) ->
  (playback_length (trace_of (record_av_segment w fuel d s)) < d + 1 / fps)%Q.
Proof.
  intros Hd Hpace. unfold playback_length.
  rewrite record_av_segment_frames.
  pose proof (recording_loop_frames_in_time w d fuel 0%nat s) as Hin.
  destruct (List.length
              (written_frames
                 (trace_of (recording_loop w d (clock w 0%nat) fuel 0 s))))
    as [|m] eqn:En.
  - unfold Qdiv. simpl. rewrite Qmult_0_l.
    apply Qlt_le_trans with (0 + 1 * / fps)%Q; [reflexivity |].
    apply Qplus_le_compat; [exact Hd | apply Qle_refl].
  - specialize (Hpace m). specialize (Hin m ltac:(lia)). simpl in Hin.
    rewrite Nat2Z.inj_succ. unfold Z.succ. rewrite inject_Z_plus.
    unfold Qdiv in *. rewrite Qmult_plus_distr_l.
    apply Qplus_lt_le_compat; [| apply Qle_refl].
    apply Qle_lt_trans with (elapsed w m); assumption.
Qed.

Lemma paced_camera_bounds_playback_witness :
  (playback_length
     (trace_of (record_av_segment paced_camera_world 200 (1 # 1) demo_session))
   < (1 # 1) + 1 / fps)%Q.
Proof.
  apply (paced_camera_bounds_playback paced_camera_world 200 (1 # 1)
           demo_session).
  - unfold Qle; simpl; lia.
  - intros j. unfold elapsed, paced_camera_world, demo_world, fps, Qdiv, Qle;
      simpl. lia.
Defined.

Lemma first_fault_In (l : list (option exn)) (e : exn) :
  first_fault l = Some e -> In (Some e) l.
Proof.
  induction l as [|[x|] l IH]; simpl; intros H.
  - discriminate.
  - left. exact H.
  - right. apply IH. exact H.
Qed.

(** The capture returns once the clock has reached the duration, if nothing
    in the loop raises. *)
Lemma capture_phase_returns (w : world) (d : Q) (n fuel : nat)
      (s : session_state) :
  (d <= elapsed w n)%Q ->
  (forall i, out_write w i = None /\ preview w i = None) ->
  (n < fuel)%nat ->
  exists k, (k <= n)%nat /\
    capture_phase w fuel d s =
      (Returned tt, s,
       capture_prologue w d ++ loop_events w 0 k ++ capture_epilogue w d).
Proof.
  intros Hdead Hclean Hfuel.
  assert (Hstop : stops_at w d n = true).
  { unfold stops_at. apply orb_true_iff. left. apply negb_true_iff.
    apply Qltb_false. exact Hdead. }
  destruct (least_true (stops_at w d) n Hstop) as (k & Hk & Sk & Hmin).
  exists k. split; [exact Hk |].
  rewrite capture_phase_unfold.
  rewrite (recording_loop_until_stop w d k fuel 0%nat s).
  - reflexivity.
  - intros j Hj; simpl. split; [apply Hmin; exact Hj | apply Hclean].
  - simpl. exact Sk.
  - lia.
Qed.

(** X6: when the clock reaches the duration, nothing in the loop raises and
    every fault of the merge is an [Exception], [record_av_segment] returns
    (given enough fuel) and the path it returns is the merged file if the
    merge had no fault and the raw silent video otherwise. *)
Theorem record_av_segment_returns_a_path (w : world) (d : Q) (n fuel : nat)
        (s : session_state) :
  (d <= elapsed w n)%Q ->
  (forall i, out_write w i = None /\ preview w i = None) ->
  (forall e, In (Some e) (merge_faults w) -> is_Exception e = true) ->
  (n < fuel)%nat ->
  result_of (record_av_segment w fuel d s) =
    Returned (match first_fault (merge_faults w) with
              | None => final_output w
              | Some _ => temp_vid w
              end).
Proof.
  intros Hdead Hclean Hexc Hfuel.
  destruct (capture_phase_returns w d n fuel s Hdead Hclean Hfuel)
    as (k & _ & Hcap).
  rewrite record_av_segment_unfold, Hcap.
  destruct (merge_step_run w s) as (_ & _ & Hrun).
  change (result_of (merge_step w s) =
          Returned (match first_fault (merge_faults w) with
                    | None => final_output w
                    | Some _ => temp_vid w
                    end)).
  destruct (first_fault (merge_faults w)) as [[m|m]|] eqn:Ef.
  - apply Hrun.
  - specialize (Hexc _ (first_fault_In _ _ Ef)). discriminate.
  - apply Hrun.
Qed.

Lemma record_av_segment_returns_a_path_witness :
  result_of (record_av_segment corrupt_audio_world 5 (3 # 1) demo_session)
    = Returned "/tmp/raw.mp4".
Proof.
  apply (record_av_segment_returns_a_path corrupt_audio_world (3 # 1) 2 5
           demo_session).
  - unfold Qle; simpl; lia.
  - intros i; split; reflexivity.
  - intros e He. simpl in He.
    destruct He as [He | [He | [He | [He | [He | [He | []]]]]]];
      try discriminate.
    injection He as <-. reflexivity.
  - lia.
Defined.

(** ** More on the merge *)

(** X7: when the six MoviePy calls succeed, the merged file is returned and
    nothing is reported, whatever happens to the deletion of the raw files:
    any exception there, a [KeyboardInterrupt] included, is swallowed.  The
    raw audio file is deleted only if the raw video file was: a failure to
    delete the first skips the second. *)
Theorem cleanup_failures_are_swallowed (w : world) (s : session_state) :
  first_fault (merge_faults w) = None ->
  result_of (merge_step w s) = Returned (final_output w) /\
  existsb is_error_report (trace_of (merge_step w s)) = false /\
  removed_files (trace_of (merge_step w s)) =
    match remove_vid w, remove_audio w with
    | Some _, _ => []
    | None, Some _ => [temp_vid w]
    | None, None => [temp_vid w; temp_audio w]
    end.
Proof.
  unfold merge_faults, first_fault, merge_step, try_except_Exception,
    try_except_pass, bind, perform, tell, raise, ret, result_of, trace_of.
  fault_cases (video_clip_open w); [discriminate | discriminate |].
  fault_cases (audio_clip_open w); [discriminate | discriminate |].
  fault_cases (set_audio w); [discriminate | discriminate |].
  fault_cases (write_videofile w); [discriminate | discriminate |].
  fault_cases (video_clip_close w); [discriminate | discriminate |].
  fault_cases (audio_clip_close w); [discriminate | discriminate |].
  intros _.
  fault_cases (remove_vid w); [auto | auto |].
  fault_cases (remove_audio w); auto.
Qed.

Lemma cleanup_failures_are_swallowed_witness :
  result_of (merge_step (undeletable_world (PyBaseException "KeyboardInterrupt"))
                        demo_session)
    = Returned "/tmp/final.mp4" /\
  existsb is_error_report
    (trace_of (merge_step (undeletable_world (PyBaseException "KeyboardInterrupt"))
                          demo_session)) = false /\
  removed_files
    (trace_of (merge_step (undeletable_world (PyBaseException "KeyboardInterrupt"))
                          demo_session)) = [].
Proof.
  apply (cleanup_failures_are_swallowed
           (undeletable_world (PyBaseException "KeyboardInterrupt"))
           demo_session).
  reflexivity.
Defined.

(** X8: when one of the six MoviePy calls raises, no file is deleted: the
    fallback leaves both raw files on disk.  If the fault comes after the
    video clip was opened and before it is closed, the clip is left open. *)
Theorem fallback_deletes_and_closes_nothing (w : world) (s : session_state)
        (e : exn) :
  first_fault (merge_faults w) = Some e ->
  removed_files (trace_of (merge_step w s)) = [] /\
  (first_fault [audio_clip_open w; set_audio w; write_videofile w] <> None ->
   video_clip_open w = None ->
   video_clip_opened (trace_of (merge_step w s)) = true /\
   video_clip_closed (trace_of (merge_step w s)) = false).
Proof.
  unfold merge_faults, first_fault, merge_step, try_except_Exception,
    try_except_pass, bind, perform, tell, raise, ret, result_of, trace_of.
  fault_cases (video_clip_open w);
    [intros _; split; [reflexivity | intros _ H; discriminate]
    |intros _; split; [reflexivity | intros _ H; discriminate] |].
  fault_cases (audio_clip_open w); [auto | auto |].
  fault_cases (set_audio w); [auto | auto |].
  fault_cases (write_videofile w); [auto | auto |].
  fault_cases (video_clip_close w);
    [intros _; split; [reflexivity | intros H; congruence]
    |intros _; split; [reflexivity | intros H; congruence] |].
  fault_cases (audio_clip_close w);
    [intros _; split; [reflexivity | intros H; congruence]
    |intros _; split; [reflexivity | intros H; congruence] |].
  discriminate.
Qed.

Lemma fallback_deletes_and_closes_nothing_witness :
  removed_files (trace_of (merge_step corrupt_audio_world demo_session)) = [] /\
  video_clip_opened (trace_of (merge_step corrupt_audio_world demo_session))
    = true /\
  video_clip_closed (trace_of (merge_step corrupt_audio_world demo_session))
    = false.
Proof.
  destruct (fallback_deletes_and_closes_nothing corrupt_audio_world
              demo_session (PyException "corrupt audio file") eq_refl)
    as [Hrm Hclip].
  split; [exact Hrm |].
  apply Hclip; [discriminate | reflexivity].
Defined.

(** ** More on the live branch *)

Lemma recorder_event_not_success (tr : list event) (text : string) :
  forallb recorder_event tr = true -> ~ In (StSuccess text) tr.
Proof.
  intros H Hin. rewrite forallb_forall in H.
  specialize (H _ Hin). discriminate.
Qed.

(** X9: "Start Recording" sets the video path only when the recorder
    returns: then the path is the one returned and "Recording Saved!" is
    shown.  When the recorder raises, the exception leaves the page, the
    session is as before and no success message is shown. *)
Theorem live_branch_saves_only_on_return (w : world) (fuel : nat)
        (s : session_state) :
  match result_of (record_av_segment w fuel (60 # 1) s) with
  | Returned p =>
      result_of (page4_live w fuel true s) = Returned tt /\
      state_of (page4_live w fuel true s) = with_video_path s (Some p) /\
      In (StSuccess "Recording Saved!") (trace_of (page4_live w fuel true s))
  | Raised e =>
      result_of (page4_live w fuel true s) = Raised e /\
      state_of (page4_live w fuel true s) = s /\
      ~ In (StSuccess "Recording Saved!") (trace_of (page4_live w fuel true s))
  | OutOfFuel =>
      result_of (page4_live w fuel true s) = OutOfFuel
  end.
Proof.
  pose proof (record_av_segment_state w fuel (60 # 1) s) as Hst.
  pose proof (record_av_segment_events w fuel (60 # 1) s) as Hev.
  unfold page4_live, bind, tell, get, set_video_path, modify, ret.
  destruct (record_av_segment w fuel (60 # 1) s) as [[o s1] t].
  unfold state_of, trace_of, result_of in *; simpl in *. subst s1.
  destruct o as [p | e |]; simpl.
  - destruct p as [|c p]; simpl; repeat split;
      right; apply in_or_app; left; apply in_or_app; right; left; reflexivity.
  - repeat split. intros [H | H]; [discriminate |].
    exact (recorder_event_not_success t _ Hev H).
  - reflexivity.
Qed.

(** ** The script as a whole *)

Lemma same_but_video_refl (s : session_state) : same_but_video s s.
Proof. repeat split. Qed.

Lemma same_but_video_trans (s1 s2 s3 : session_state) :
  same_but_video s1 s2 -> same_but_video s2 s3 -> same_but_video s1 s3.
Proof.
  unfold same_but_video. intros (A & B & C & D) (A' & B' & C' & D').
  repeat split; congruence.
Qed.

Lemma bind_same_but_video {A B} (m : M A) (k : A -> M B) (s : session_state) :
  same_but_video s (state_of (m s)) ->
  (forall a s1, same_but_video s1 (state_of (k a s1))) ->
  same_but_video s (state_of (bind m k s)).
Proof.
  intros Hm Hk. unfold bind.
  destruct (m s) as [[o s1] t1]. unfold state_of in Hm; simpl in Hm.
  destruct o as [a | e |]; try exact Hm.
  specialize (Hk a s1).
  destruct (k a s1) as [[o2 s2] t2]. unfold state_of in *; simpl in *.
  exact (same_but_video_trans _ _ _ Hm Hk).
Qed.

Lemma page4_live_frame (w : world) (fuel : nat) (b : bool) (s : session_state) :
  same_but_video s (state_of (page4_live w fuel b s)).
Proof.
  unfold page4_live.
  apply bind_same_but_video; [apply same_but_video_refl |]. intros _ s1.
  apply bind_same_but_video.
  - destruct b; [| apply same_but_video_refl].
    apply bind_same_but_video.
    + rewrite record_av_segment_state. apply same_but_video_refl.
    + intros p s2. apply bind_same_but_video; [repeat split |].
      intros _ s3. apply same_but_video_refl.
  - intros _ s2. apply bind_same_but_video; [apply same_but_video_refl |].
    intros s3 s4. destruct (truthy (video_path s3)); apply same_but_video_refl.
Qed.

Lemma page4_frame (u : utils) (inp : rerun_input) (s : session_state) :
  same_but_video s (state_of (page4 u inp s)).
Proof.
  unfold page4.
  apply bind_same_but_video; [apply same_but_video_refl |]. intros s0 s1.
  apply bind_same_but_video.
  - destruct (is_method (input_method s0) "upload").
    + unfold page4_upload. destruct (in_uploaded inp);
        [repeat split | apply same_but_video_refl].
    + destruct (is_method (input_method s0) "live");
        [apply page4_live_frame | apply same_but_video_refl].
  - intros _ s2. unfold when.
    destruct (pressed (in_clicked inp) BtnAnalyze);
      [rewrite analyze_state |]; apply same_but_video_refl.
Qed.

Lemma rerun_keeps_session_ok_aux (u : utils) (inp : rerun_input)
      (s : session_state) :
  session_ok s -> session_ok (state_of (rerun u inp s)).
Proof.
  intros (Hpage & Hlang & Hmeth & Hvid).
  unfold rerun, when.
  destruct (pressed (in_clicked inp) BtnStartOver) eqn:Hso.
  - (* the callback puts the session on page 1; the script then draws it *)
    assert (Hc : in_clicked inp = Some BtnStartOver).
    { unfold pressed in Hso. destruct (in_clicked inp) as [c|]; [| discriminate].
      destruct (button_eq_dec c BtnStartOver); [congruence | discriminate]. }
    unfold script, page1, when, reset_app, set_page, set_video_path,
      set_input_method, bind, modify, get, ret, state_of.
    rewrite Hc; simpl.
    unfold session_ok; simpl.
    repeat split; try lia; try assumption; try (intros; lia).
  - assert (Hcases : page s = 1 \/ page s = 2 \/ page s = 3 \/ page s = 4) by lia.
    unfold script.
    destruct Hcases as [Hp | [Hp | [Hp | Hp]]].
    + unfold page1, when, next_page, bind, modify, get, ret, state_of; simpl.
      rewrite Hp; simpl.
      destruct (pressed (in_clicked inp) BtnExploreNow); simpl;
        unfold session_ok; simpl; rewrite ?Hp;
        repeat split; try lia; try assumption;
        try (intros; lia); try (intros; apply Hvid; lia).
    + unfold page2, when, prev_page, set_input, set_input_method, next_page,
        bind, modify, get, ret, state_of; simpl.
      rewrite Hp; simpl.
      destruct (in_clicked inp) as [[]|]; simpl;
        unfold session_ok; simpl; rewrite ?Hp;
        repeat split; try lia; try assumption; auto;
        try (intros; lia); try (intros; apply Hvid; lia).
    + unfold page3, when, prev_page, set_language, set_target_lang,
        set_target_lang_code, next_page, bind, modify, get, ret, state_of; simpl.
      rewrite Hp; simpl.
      assert (Hm : input_method s = Some "upload" \/ input_method s = Some "live")
        by (apply Hmeth; lia).
      assert (Hv : video_path s = None) by (apply Hvid; lia).
      destruct (in_clicked inp) as [[]|]; simpl;
        unfold session_ok, languages; simpl; rewrite ?Hp;
        repeat split; try lia; try assumption; auto 10;
        try (intros; lia).
    + unfold bind, ret, get; cbn -[page4]. rewrite Hp; cbn -[page4].
      destruct (page4_frame u inp s) as (A & B & C & D).
      destruct (page4 u inp s) as [[o s1] t]. unfold state_of in *; simpl in *.
      assert (Hok : session_ok s1).
      { unfold session_ok. rewrite A, B, C, D.
        repeat split; try lia; try assumption; try (intros; lia). }
      destruct o; exact Hok.
Qed.

(** X10: one run of the script keeps the session well formed, whatever is
    clicked or uploaded and whatever the devices and collaborators do, an
    exception included: the page stays within 1 to 4, the language name and
    code are one of the five pairs, from page 3 on an input method is
    chosen, and a video path exists on page 4 only. *)
Theorem rerun_keeps_session_ok (u : utils) (inp : rerun_input)
        (s : session_state) :
  session_ok s -> session_ok (state_of (rerun u inp s)).
Proof. apply rerun_keeps_session_ok_aux. Qed.

Lemma rerun_keeps_session_ok_witness :
  session_ok
    (state_of (rerun (demo_utils 0)
                     (mkInput (Some BtnTamil) None steady_world 5)
                     language_page_session)).
Proof.
  apply (rerun_keeps_session_ok (demo_utils 0)
           (mkInput (Some BtnTamil) None steady_world 5)
           language_page_session).
  unfold session_ok, language_page_session, languages; simpl.
  repeat split; try lia; auto.
Defined.

(** X11: every session the script can reach from the initial one, by any
    series of runs, is well formed. *)
Theorem reachable_sessions_are_ok (u : utils) (inps : list rerun_input) :
  session_ok (reruns u inps initial_session).
Proof.
  assert (H : forall s, session_ok s -> session_ok (reruns u inps s)).
  { induction inps as [|inp rest IH]; intros s Hs; simpl; [exact Hs |].
    apply IH. apply rerun_keeps_session_ok_aux. exact Hs. }
  apply H.
  unfold session_ok, initial_session, languages; simpl.
  repeat split; try lia; auto.
Qed.

(** X12: a run started by "Start Over" ends on the splash page with no
    input method and no video, the language kept; the callback runs before
    the script, so nothing of page 4 is executed in that run: no event, no
    recording, no analysis. *)
Theorem start_over_run (u : utils) (inp : rerun_input) (s : session_state) :
  in_clicked inp = Some BtnStartOver ->
  rerun u inp s =
    (Returned tt,
     {| page := 1; input_method := None;
        target_lang := target_lang s;
        target_lang_code := target_lang_code s;
        video_path := None |},
     []).
Proof.
  intros Hc. unfold rerun, when, script, page1, reset_app, set_page,
    set_video_path, set_input_method, bind, modify, get, ret.
  rewrite Hc. reflexivity.
Qed.

Lemma start_over_run_witness :
  rerun (demo_utils 0) (mkInput (Some BtnStartOver) (Some "/tmp/up.mp4")
                                steady_world 5) demo_session =
    (Returned tt,
     {| page := 1; input_method := None; target_lang := "Hindi";
        target_lang_code := "hi"; video_path := None |},
     []).
Proof.
  apply (start_over_run (demo_utils 0)
           (mkInput (Some BtnStartOver) (Some "/tmp/up.mp4") steady_world 5)
           demo_session).
  reflexivity.
Defined.

(** X13: away from page 4 a run uses neither the devices nor the
    collaborators: whatever is clicked, it returns without raising and logs
    no event. *)
Theorem only_page4_has_effects (u : utils) (inp : rerun_input)
        (s : session_state) :
  page s <> 4 ->
  result_of (rerun u inp s) = Returned tt /\ trace_of (rerun u inp s) = [].
Proof.
  intros Hp.
  assert (H4 : (page s =? 4) = false) by (apply Z.eqb_neq; exact Hp).
  unfold rerun, when, script, page1, page2, page3, reset_app, set_page,
    set_video_path, set_input_method, set_input, set_language,
    set_target_lang, set_target_lang_code, next_page, prev_page,
    bind, modify, get, ret, result_of, trace_of.
  destruct (in_clicked inp) as [[]|]; simpl;
    try (split; reflexivity);
    destruct (page s =? 1); simpl; try (split; reflexivity);
    destruct (page s =? 2); simpl; try (split; reflexivity);
    destruct (page s =? 3); simpl; try (split; reflexivity);
    rewrite H4; split; reflexivity.
Qed.

Lemma only_page4_has_effects_witness :
  result_of (rerun (failing_utils 0)
                   (mkInput (Some BtnAnalyze) (Some "/tmp/up.mp4")
                            failing_preview_world 5)
                   language_page_session) = Returned tt /\
  trace_of (rerun (failing_utils 0)
                  (mkInput (Some BtnAnalyze) (Some "/tmp/up.mp4")
                           failing_preview_world 5)
                  language_page_session) = [].
Proof.
  apply (only_page4_has_effects (failing_utils 0)
           (mkInput (Some BtnAnalyze) (Some "/tmp/up.mp4")
                    failing_preview_world 5)
           language_page_session).
  discriminate.
Defined.

(** A run on page 4 started by "ANALYZE LIP MOVEMENTS", in upload mode: the
    uploader, if it holds a file, sets the path first. *)
Lemma rerun_analyze_upload (u : utils) (inp : rerun_input) (s : session_state) :
  page s = 4 ->
  input_method s = Some "upload" ->
  in_clicked inp = Some BtnAnalyze ->
  rerun u inp s =
    analyze u (match in_uploaded inp with
               | Some f => with_video_path s (Some f)
               | None => s
               end).
Proof.
  intros Hp Hm Hc.
  unfold rerun, when, script, page4, page4_upload, set_video_path, modify,
    bind, get, ret, pressed.
  rewrite Hc; cbn -[analyze]. rewrite Hp; cbn -[analyze].
  rewrite Hm; cbn -[analyze].
  destruct (in_uploaded inp) as [f|]; cbn -[analyze].
  - change {| page := page s; input_method := input_method s;
              target_lang := target_lang s;
              target_lang_code := target_lang_code s;
              video_path := Some f |} with (with_video_path s (Some f)).
    destruct (analyze u (with_video_path s (Some f))) as [[o s2] t].
    destruct o; reflexivity.
  - destruct (analyze u s) as [[o s2] t]. destruct o; reflexivity.
Qed.

(** A run on page 3 started by a language button. *)
Lemma rerun_language (u : utils) (inp : rerun_input) (s : session_state)
      (b : button) (name code : string) :
  page s = 3 ->
  in_clicked inp = Some b ->
  language_of_button b = Some (name, code) ->
  rerun u inp s =
    (Returned tt,
     {| page := 4; input_method := input_method s;
        target_lang := name; target_lang_code := code;
        video_path := video_path s |},
     []).
Proof.
  intros Hp Hc Hb.
  unfold rerun, when, script, page3, prev_page, set_language, set_target_lang,
    set_target_lang_code, next_page, bind, modify, get, ret, pressed.
  rewrite Hc.
  destruct b; try discriminate; injection Hb as <- <-;
    simpl; rewrite Hp; simpl; rewrite ?Hp; reflexivity.
Qed.

(** X14: the language clicked on page 3 and the file uploaded on page 4 are
    what the collaborators get.  After a run started by a language button,
    the session is on page 4; a following run started by "ANALYZE LIP
    MOVEMENTS" with a file in the uploader calls the visual collaborator and
    the decoder on that file's temporary copy, the translation with the
    code of the clicked language, and shows the result under its name. *)
Theorem upload_and_language_reach_collaborators
        (u : utils) (inp1 inp2 : rerun_input) (s : session_state) (b : button)
        (name code f raw translated : string) (feat : features u) :
  page s = 3 ->
  input_method s = Some "upload" ->
  in_clicked inp1 = Some b ->
  language_of_button b = Some (name, code) ->
  in_clicked inp2 = Some BtnAnalyze ->
  in_uploaded inp2 = Some f ->
  f <> EmptyString ->
  visual_feature_extraction u f = Ok feat ->
  deep_lip_decode u f = Ok raw ->
  translate_content u raw code = Ok translated ->
  page (state_of (rerun u inp1 s)) = 4 /\
  result_of (rerun u inp2 (state_of (rerun u inp1 s))) = Returned tt /\
  video_path (state_of (rerun u inp2 (state_of (rerun u inp1 s)))) = Some f /\
  collaborator_calls (trace_of (rerun u inp2 (state_of (rerun u inp1 s)))) =
    [CallVisual f; CallDecode f; CallTranslate raw code] /\
  In (ResultBox name translated raw)
     (trace_of (rerun u inp2 (state_of (rerun u inp1 s)))).
Proof.
  intros Hp Hm Hc1 Hb Hc2 Hup Hne Hv Hd Ht.
  rewrite (rerun_language u inp1 s b name code Hp Hc1 Hb).
  set (s1 := {| page := 4; input_method := input_method s;
                target_lang := name; target_lang_code := code;
                video_path := video_path s |}).
  change (state_of (Returned tt, s1, @nil event)) with s1.
  split; [reflexivity |].
  rewrite (rerun_analyze_upload u inp2 s1 eq_refl Hm Hc2).
  rewrite Hup.
  rewrite (analyze_run u (with_video_path s1 (Some f)) f feat raw translated
             eq_refl Hne Hv Hd Ht).
  repeat split. simpl. auto 20.
Qed.

Lemma upload_and_language_reach_collaborators_witness :
  page (state_of (rerun (demo_utils 0)
                        (mkInput (Some BtnTamil) None steady_world 5)
                        language_page_session)) = 4 /\
  result_of
    (rerun (demo_utils 0)
           (mkInput (Some BtnAnalyze) (Some "/tmp/up.mp4") steady_world 5)
           (state_of (rerun (demo_utils 0)
                            (mkInput (Some BtnTamil) None steady_world 5)
                            language_page_session))) = Returned tt /\
  video_path
    (state_of
       (rerun (demo_utils 0)
              (mkInput (Some BtnAnalyze) (Some "/tmp/up.mp4") steady_world 5)
              (state_of (rerun (demo_utils 0)
                               (mkInput (Some BtnTamil) None steady_world 5)
                               language_page_session)))) = Some "/tmp/up.mp4" /\
  collaborator_calls
    (trace_of
       (rerun (demo_utils 0)
              (mkInput (Some BtnAnalyze) (Some "/tmp/up.mp4") steady_world 5)
              (state_of (rerun (demo_utils 0)
                               (mkInput (Some BtnTamil) None steady_world 5)
                               language_page_session)))) =
    [CallVisual "/tmp/up.mp4"; CallDecode "/tmp/up.mp4";
     CallTranslate "heard in /tmp/up.mp4" "ta"] /\
  In (ResultBox "Tamil" "ta: heard in /tmp/up.mp4" "heard in /tmp/up.mp4")
     (trace_of
        (rerun (demo_utils 0)
               (mkInput (Some BtnAnalyze) (Some "/tmp/up.mp4") steady_world 5)
               (state_of (rerun (demo_utils 0)
                                (mkInput (Some BtnTamil) None steady_world 5)
                                language_page_session)))).
Proof.
  apply (upload_and_language_reach_collaborators (demo_utils 0)
           (mkInput (Some BtnTamil) None steady_world 5)
           (mkInput (Some BtnAnalyze) (Some "/tmp/up.mp4") steady_world 5)
           language_page_session BtnTamil "Tamil" "ta" "/tmp/up.mp4"
           "heard in /tmp/up.mp4" "ta: heard in /tmp/up.mp4" 0%nat);
    try reflexivity; discriminate.
Defined.

(** X15: emptying the uploader does not clear the video path.  On page 4 in
    upload mode, a run started by "ANALYZE LIP MOVEMENTS" with no file in
    the uploader leaves the path as it was and analyses the file uploaded
    before. *)
Theorem empty_uploader_keeps_previous_video
        (u : utils) (inp : rerun_input) (s : session_state)
        (p raw translated : string) (feat : features u) :
  page s = 4 ->
  input_method s = Some "upload" ->
  video_path s = Some p ->
  p <> EmptyString ->
  in_clicked inp = Some BtnAnalyze ->
  in_uploaded inp = None ->
  visual_feature_extraction u p = Ok feat ->
  deep_lip_decode u p = Ok raw ->
  translate_content u raw (target_lang_code s) = Ok translated ->
  state_of (rerun u inp s) = s /\
  collaborator_calls (trace_of (rerun u inp s)) =
    [CallVisual p; CallDecode p; CallTranslate raw (target_lang_code s)] /\
  displayed_result (trace_of (rerun u inp s)) = [(translated, raw)].
Proof.
  intros Hp Hm Hv Hne Hc Hup Hvis Hd Ht.
  rewrite rerun_analyze_upload; [| exact Hp | exact Hm | exact Hc].
  rewrite Hup.
  rewrite (analyze_run u s p feat raw translated Hv Hne Hvis Hd Ht).
  repeat split.
Qed.

Lemma empty_uploader_keeps_previous_video_witness :
  state_of (rerun (demo_utils 0) (mkInput (Some BtnAnalyze) None steady_world 5)
                  demo_session) = demo_session /\
  collaborator_calls
    (trace_of (rerun (demo_utils 0)
                     (mkInput (Some BtnAnalyze) None steady_world 5)
                     demo_session)) =
    [CallVisual "clip.mp4"; CallDecode "clip.mp4";
     CallTranslate "heard in clip.mp4" "hi"] /\
  displayed_result
    (trace_of (rerun (demo_utils 0)
                     (mkInput (Some BtnAnalyze) None steady_world 5)
                     demo_session)) =
    [("hi: heard in clip.mp4", "heard in clip.mp4")].
Proof.
  apply (empty_uploader_keeps_previous_video (demo_utils 0)
           (mkInput (Some BtnAnalyze) None steady_world 5) demo_session
           "clip.mp4" "heard in clip.mp4" "hi: heard in clip.mp4" 0%nat);
    try reflexivity; discriminate.
Defined.

Lemma rerun_start_recording (u : utils) (inp : rerun_input) (s : session_state) :
  page s = 4 ->
  input_method s = Some "live" ->
  in_clicked inp = Some BtnStartRecording ->
  rerun u inp s = page4_live (in_devices inp) (in_fuel inp) true s.
Proof.
  intros Hp Hm Hc.
  unfold rerun, when, script, page4, bind, get, ret, pressed.
  rewrite Hc; cbn -[page4_live]. rewrite Hp; cbn -[page4_live].
  rewrite Hm; cbn -[page4_live].
  destruct (page4_live (in_devices inp) (in_fuel inp) true s) as [[o s2] t].
  destruct o as [[] | e |]; rewrite ?app_nil_r; reflexivity.
Qed.

Lemma rerun_analyze_live (u : utils) (inp : rerun_input) (s : session_state)
      (p : string) :
  page s = 4 ->
  input_method s = Some "live" ->
  in_clicked inp = Some BtnAnalyze ->
  video_path s = Some p ->
  p <> EmptyString ->
  rerun u inp s =
    (result_of (analyze u s), state_of (analyze u s),
     StInfo "Records for 2 MINUTES." :: StVideo p :: trace_of (analyze u s)).
Proof.
  intros Hp Hm Hc Hv Hne.
  unfold rerun, when, script, page4, page4_live, bind, get, ret, tell, pressed.
  rewrite Hc; cbn -[analyze]. rewrite Hp; cbn -[analyze].
  rewrite Hm; cbn -[analyze]. rewrite Hv; cbn -[analyze].
  destruct p as [|c p]; [congruence |]; cbn -[analyze].
  destruct (analyze u s) as [[o s2] t]. destruct o; reflexivity.
Qed.

(** X16: what the recorder returns is what gets analysed.  On page 4 in live
    mode, if a run started by "Start Recording" has the recorder return a
    path, a following run started by "ANALYZE LIP MOVEMENTS" shows that
    video again without recording anew, calls the visual collaborator and
    the decoder on that path, and displays the result. *)
Theorem recorded_file_is_analysed
        (u : utils) (inp1 inp2 : rerun_input) (s : session_state)
        (p raw translated : string) (feat : features u) :
  page s = 4 ->
  input_method s = Some "live" ->
  in_clicked inp1 = Some BtnStartRecording ->
  result_of (record_av_segment (in_devices inp1) (in_fuel inp1) (60 # 1) s)
    = Returned p ->
  p <> EmptyString ->
  in_clicked inp2 = Some BtnAnalyze ->
  visual_feature_extraction u p = Ok feat ->
  deep_lip_decode u p = Ok raw ->
  translate_content u raw (target_lang_code s) = Ok translated ->
  state_of (rerun u inp1 s) = with_video_path s (Some p) /\
  result_of (rerun u inp2 (state_of (rerun u inp1 s))) = Returned tt /\
  collaborator_calls (trace_of (rerun u inp2 (state_of (rerun u inp1 s)))) =
    [CallVisual p; CallDecode p; CallTranslate raw (target_lang_code s)] /\
  displayed_result (trace_of (rerun u inp2 (state_of (rerun u inp1 s)))) =
    [(translated, raw)] /\
  In (StVideo p) (trace_of (rerun u inp2 (state_of (rerun u inp1 s)))) /\
  written_frames (trace_of (rerun u inp2 (state_of (rerun u inp1 s)))) = [].
Proof.
  intros Hp Hm Hc1 Hrec Hne Hc2 Hv Hd Ht.
  assert (Hs1 : state_of (rerun u inp1 s) = with_video_path s (Some p)).
  { rewrite (rerun_start_recording u inp1 s Hp Hm Hc1).
    pose proof (record_av_segment_state (in_devices inp1) (in_fuel inp1)
                  (60 # 1) s) as Hst.
    unfold page4_live, bind, tell, get, set_video_path, modify, ret.
    destruct (record_av_segment (in_devices inp1) (in_fuel inp1) (60 # 1) s)
      as [[o s1] t].
    unfold result_of, state_of in *; simpl in *. subst o s1.
    destruct p as [|c p]; [congruence |]. reflexivity. }
  split; [exact Hs1 |].
  rewrite Hs1.
  rewrite (rerun_analyze_live u inp2 (with_video_path s (Some p)) p
             Hp Hm Hc2 eq_refl Hne).
  rewrite (analyze_run u (with_video_path s (Some p)) p feat raw translated
             eq_refl Hne Hv Hd Ht).
  repeat split. simpl. auto.
Qed.

Lemma recorded_file_is_analysed_witness :
  state_of (rerun (demo_utils 0)
                  (mkInput (Some BtnStartRecording) None failing_camera_world 5)
                  live_session)
    = with_video_path live_session (Some "/tmp/final.mp4") /\
  result_of
    (rerun (demo_utils 0) (mkInput (Some BtnAnalyze) None steady_world 0)
       (state_of (rerun (demo_utils 0)
                        (mkInput (Some BtnStartRecording) None
                                 failing_camera_world 5)
                        live_session))) = Returned tt /\
  collaborator_calls
    (trace_of
       (rerun (demo_utils 0) (mkInput (Some BtnAnalyze) None steady_world 0)
          (state_of (rerun (demo_utils 0)
                           (mkInput (Some BtnStartRecording) None
                                    failing_camera_world 5)
                           live_session)))) =
    [CallVisual "/tmp/final.mp4"; CallDecode "/tmp/final.mp4";
     CallTranslate "heard in /tmp/final.mp4" "ta"] /\
  displayed_result
    (trace_of
       (rerun (demo_utils 0) (mkInput (Some BtnAnalyze) None steady_world 0)
          (state_of (rerun (demo_utils 0)
                           (mkInput (Some BtnStartRecording) None
                                    failing_camera_world 5)
                           live_session)))) =
    [("ta: heard in /tmp/final.mp4", "heard in /tmp/final.mp4")] /\
  In (StVideo "/tmp/final.mp4")
     (trace_of
        (rerun (demo_utils 0) (mkInput (Some BtnAnalyze) None steady_world 0)
           (state_of (rerun (demo_utils 0)
                            (mkInput (Some BtnStartRecording) None
                                     failing_camera_world 5)
                            live_session)))) /\
  written_frames
    (trace_of
       (rerun (demo_utils 0) (mkInput (Some BtnAnalyze) None steady_world 0)
          (state_of (rerun (demo_utils 0)
                           (mkInput (Some BtnStartRecording) None
                                    failing_camera_world 5)
                           live_session)))) = [].
Proof.
  apply (recorded_file_is_analysed (demo_utils 0)
           (mkInput (Some BtnStartRecording) None failing_camera_world 5)
           (mkInput (Some BtnAnalyze) None steady_world 0)
           live_session "/tmp/final.mp4" "heard in /tmp/final.mp4"
           "ta: heard in /tmp/final.mp4" 0%nat);
    try reflexivity; discriminate.
Defined.
